(** * GSVA wrapper of GSEApy ([gseapy/gsva.py]): loading and orchestration

    A shallow embedding of the class [GSVA]: its constructor, [load_data]
    and [run].  The class is glue around pandas and around the compiled
    engine [gsva_rs]; the embedding therefore consists of

    - a small model of the pandas objects the code manipulates (frames
      stored by column, an index with a dtype, series with a [name]),
    - the Python heap, because the caller's object and [self.data] are the
      same object until [run] rebinds the attribute,
    - a state-and-exception monad in which [load_data] and [run] are written
      statement by statement, and which collects every logger call and
      every call to a collaborator in a trace.

    Numbers: a float64 or int64 cell is idealised as an exact rational
    ([Qc]); [NA] stands for NaN / None, i.e. whatever [isnull] reports.
    Rounding and the IEEE infinities are outside the model. *)

From Stdlib Require Import QArith Qcanon.
From stdpp Require Import base option list strings numbers gmap sorting pretty.

Local Open Scope string_scope.
Local Open Scope list_scope.

(** ** Python exceptions and results *)

Inductive exn :=
  | Exception (msg : string)          (* raise Exception(msg) *)
  | AssertionError
  | AttributeError
  | TypeError
  | IndexError
  | ValueError
  | OtherError (cls : string).        (* raised inside a collaborator *)

Inductive result (A : Type) :=
  | Ok (a : A)
  | Raise (e : exn).
Arguments Ok {A} a.
Arguments Raise {A} e.

Global Instance exn_eq_dec : EqDecision exn.
Proof. solve_decision. Defined.

(** ** pandas / numpy data *)

(** The dtypes the code can tell apart: [np.number] covers the first two,
    ["O"] is [Object], [Unicode] is the dtype of a numpy string scalar. *)
Inductive dtype := Int64 | Float64 | Unicode | Object.

Global Instance dtype_eq_dec : EqDecision dtype.
Proof. solve_decision. Defined.

(** [issubclass(dtype.type, np.number)] *)
Definition is_number (d : dtype) : bool :=
  match d with Int64 | Float64 => true | Unicode | Object => false end.

(** A cell or a label. *)
Inductive scalar :=
  | NA
  | Num (q : Qc)
  | Str (s : string).

Global Instance scalar_eq_dec : EqDecision scalar.
Proof. solve_decision. Defined.

Global Instance scalar_inhabited : Inhabited scalar := populate NA.

Record Index := MkIndex {
  idx_dtype : dtype;
  idx_values : list scalar;
}.

Record Column := MkColumn {
  col_dtype : dtype;
  col_values : list scalar;
}.

(** A frame: the row index, the dtype of the column index, and the columns
    in order, each with its label. *)
Record DataFrame := MkDataFrame {
  index : Index;
  columns_dtype : dtype;
  cols : list (scalar * Column);
}.

Definition columns (df : DataFrame) : Index :=
  MkIndex (columns_dtype df) (cols df).*1.

(** The [name] attribute of a series: [None], a Python [str] or [int], or a
    numpy scalar, the only kind that has [.dtype] and [.astype]. *)
Inductive pyname :=
  | NameNone
  | NamePyStr (s : string)
  | NamePyInt (z : Z)
  | NameNp (d : dtype) (v : scalar).

Record Series := MkSeries {
  name : pyname;
  s_index : Index;
  s_dtype : dtype;
  s_values : list scalar;
}.

Global Instance Index_eq_dec : EqDecision Index.
Proof. solve_decision. Defined.
Global Instance Column_eq_dec : EqDecision Column.
Proof. solve_decision. Defined.
Global Instance DataFrame_eq_dec : EqDecision DataFrame.
Proof. solve_decision. Defined.
Global Instance pyname_eq_dec : EqDecision pyname.
Proof. solve_decision. Defined.
Global Instance Series_eq_dec : EqDecision Series.
Proof. solve_decision. Defined.

(** The constructor's [data: Union[pd.DataFrame, pd.Series, str]]. *)
Inductive pydata :=
  | PyDataFrame (df : DataFrame)
  | PySeries (s : Series)
  | PyStr (path : string).

Global Instance pydata_eq_dec : EqDecision pydata.
Proof. solve_decision. Defined.

(** [gene_sets: Union[List[str], str, Dict[str, str]]] *)
Inductive gene_sets_arg :=
  | GsList (l : list string)
  | GsPath (p : string)
  | GsDict (d : list (string * string)).

(** The dict built by [load_gmt]: gene-set name to member genes. *)
Definition Gmt := list (string * list string).

(** ** The object *)

Definition loc := nat.

(** The attributes [GSEAbase.__init__] sets and [run] reads. *)
Record GSEAbase := MkBase {
  _outdir : option string;
  gene_sets : gene_sets_arg;
  module : string;
  _threads : Z;
  verbose : bool;
}.

Section Ranking.
Context {Item : Type}.

Record GSVA := MkGSVA {
  base : GSEAbase;
  data : loc;
  tau : Qc;
  min_size : Z;
  max_size : Z;
  seed : Z;
  mx_diff : bool;
  abs_rnk : bool;
  ranking : option (list Item);
  permutation_num : Z;
  _noplot : bool;
  kernel : bool;
  rnaseq : bool;
  permutation_type : string;
  gmt : option Gmt;
}.
End Ranking.
Arguments GSVA : clear implicits.

(** [kcdf in ["Gaussian", "gaussian"]] and its siblings, lines 50-58: the
    pair [(self.kernel, self.rnaseq)]. *)
Definition kernel_of_kcdf (kcdf : option string) : bool * bool :=
  if bool_decide (kcdf ∈ [Some "Gaussian"; Some "gaussian"]) then (true, false)
  else if bool_decide (kcdf ∈ [Some "Poisson"; Some "poisson"]) then (true, true)
  else (false, false).

(** ** pandas operations used by [load_data] and [run] *)

Definition TAB : string := String (Ascii.ascii_of_nat 9) EmptyString.

(** [s.endswith(suffix)] *)
Definition endswith (s suffix : string) : bool :=
  String.prefix (String.rev suffix) (String.rev s).

(** [pd.isnull] on one cell. *)
Definition isna (v : scalar) : bool :=
  match v with NA => true | _ => false end.

(** [df.isnull()], [.any()] (per column) and [.sum()] (number of [True]). *)
Definition isnull (df : DataFrame) : list (list bool) :=
  (λ lc, isna <$> col_values lc.2) <$> cols df.
Definition any (m : list (list bool)) : list bool := existsb id <$> m.
Definition sum (l : list bool) : nat := length (filter Is_true l).

(** [df.fillna(0)] *)
Definition fill0 (v : scalar) : scalar :=
  match v with NA => Num 0 | _ => v end.
Definition fillna0 (df : DataFrame) : DataFrame :=
  MkDataFrame (index df) (columns_dtype df)
    ((λ lc, (lc.1, MkColumn (col_dtype lc.2) (fill0 <$> col_values lc.2))) <$> cols df).

(** [index.duplicated()]: [True] at every occurrence of a label but its
    first.  NaN labels count as equal to one another. *)
Fixpoint duplicated_from (seen l : list scalar) : list bool :=
  match l with
  | [] => []
  | x :: l' => bool_decide (x ∈ seen) :: duplicated_from (x :: seen) l'
  end.
Definition duplicated (idx : Index) : list bool := duplicated_from [] (idx_values idx).

(** [df.select_dtypes(include=[np.number])] *)
Definition select_dtypes_number (df : DataFrame) : DataFrame :=
  MkDataFrame (index df) (columns_dtype df)
    (filter (λ lc, Is_true (is_number (col_dtype lc.2))) (cols df)).

(** [idx[0]] *)
Definition index_getitem0 (idx : Index) : result scalar :=
  match idx_values idx with
  | [] => Raise IndexError
  | k :: _ => Ok k
  end.

(** [df.set_index(keys=key, inplace=True)]: the column labelled [key]
    becomes the row index and leaves the columns.  A label carried by
    several columns selects a frame, which cannot be made an index. *)
Definition set_index (key : scalar) (df : DataFrame) : result DataFrame :=
  match filter (λ lc, lc.1 = key) (cols df) with
  | [] => Raise (OtherError "KeyError")
  | [(_, c)] =>
      Ok (MkDataFrame (MkIndex (col_dtype c) (col_values c)) (columns_dtype df)
            (filter (λ lc, lc.1 ≠ key) (cols df)))
  | _ => Raise ValueError
  end.

(** [df.columns = idx]: relabel the columns in order. *)
Definition set_columns (idx : Index) (df : DataFrame) : DataFrame :=
  MkDataFrame (index df) (idx_dtype idx) (zip (idx_values idx) (cols df).*2).

(** [df.shape[1]] *)
Definition shape1 (df : DataFrame) : nat := length (cols df).

(** The label under which a series becomes a column. A series without a
    name becomes column [0]. *)
Definition name_label (n : pyname) : scalar :=
  match n with
  | NameNone => Num 0
  | NamePyStr s => Str s
  | NamePyInt z => Num (Qc_of_Z z)
  | NameNp _ v => v
  end.

(** [ser.to_frame()] *)
Definition to_frame (ser : Series) : DataFrame :=
  let lbl := name_label (name ser) in
  MkDataFrame (s_index ser)
    (match lbl with Str _ => Object | Num _ => Int64 | NA => Float64 end)
    [(lbl, MkColumn (s_dtype ser) (s_values ser))].

(** Order of the group keys: numbers before strings, numbers by value,
    strings by code point; NaN last. *)
Definition scalar_leb (a b : scalar) : bool :=
  match a, b with
  | _, NA => true
  | NA, _ => false
  | Num x, Num y => bool_decide (x ≤ y)%Qc
  | Num _, Str _ => true
  | Str _, Num _ => false
  | Str s, Str t => String.leb s t
  end.
Definition scalar_le (a b : scalar) : Prop := Is_true (scalar_leb a b).

(** The keys of [groupby(level=0)]: distinct labels, NaN dropped, sorted. *)
Definition group_keys (labels : list scalar) : list scalar :=
  merge_sort scalar_le (remove_dups (filter (λ k, k ≠ NA) labels)).

(** The cells of one column in the rows labelled [k]. *)
Definition group_values (k : scalar) (labels vals : list scalar) : list scalar :=
  (filter (λ lv, lv.1 = k) (zip labels vals)).*2.

(** The numbers among the cells; a string cell makes the aggregation fail. *)
Fixpoint numbers (l : list scalar) : result (list Qc) :=
  match l with
  | [] => Ok []
  | NA :: l' => numbers l'
  | Num q :: l' => match numbers l' with Ok qs => Ok (q :: qs) | Raise e => Raise e end
  | Str _ :: _ => Raise TypeError
  end.

Definition Qc_sum (qs : list Qc) : Qc := foldr Qcplus 0%Qc qs.

(** Arithmetic mean, NaN for no numbers. *)
Definition mean (l : list scalar) : result scalar :=
  match numbers l with
  | Raise e => Raise e
  | Ok [] => Ok NA
  | Ok qs => Ok (Num (Qc_sum qs / Qc_of_Z (Z.of_nat (length qs)))%Qc)
  end.

(** Python's [[f(x) for x in l]] when [f] can raise. *)
Fixpoint mapR {A B} (f : A → result B) (l : list A) : result (list B) :=
  match l with
  | [] => Ok []
  | x :: l' =>
      match f x with
      | Raise e => Raise e
      | Ok y => match mapR f l' with Ok ys => Ok (y :: ys) | Raise e => Raise e end
      end
  end.

(** [df.groupby(level=0).mean()] *)
Definition groupby_level0_mean (df : DataFrame) : result DataFrame :=
  let labels := idx_values (index df) in
  let keys := group_keys labels in
  match mapR (λ lc : scalar * Column,
                match mapR (λ k, mean (group_values k labels (col_values lc.2))) keys with
                | Ok vs => Ok (lc.1, MkColumn Float64 vs)
                | Raise e => Raise e
                end) (cols df) with
  | Ok cs => Ok (MkDataFrame (MkIndex (idx_dtype (index df)) keys) (columns_dtype df) cs)
  | Raise e => Raise e
  end.

(** [df.clip(lower=0)] *)
Definition clip0 (v : scalar) : result scalar :=
  match v with
  | NA => Ok NA
  | Num q => Ok (if bool_decide (q < 0)%Qc then Num 0 else Num q)
  | Str _ => Raise TypeError
  end.
Definition clip_lower0 (df : DataFrame) : result DataFrame :=
  match mapR (λ lc : scalar * Column,
                match mapR clip0 (col_values lc.2) with
                | Ok vs => Ok (lc.1, MkColumn (col_dtype lc.2) vs)
                | Raise e => Raise e
                end) (cols df) with
  | Ok cs => Ok (MkDataFrame (index df) (columns_dtype df) cs)
  | Raise e => Raise e
  end.

(** [df.values.tolist()]: the cells row by row. *)
Definition values_tolist (df : DataFrame) : list (list scalar) :=
  (λ i, (λ lc : scalar * Column, col_values lc.2 !!! i) <$> cols df)
    <$> seq 0 (length (idx_values (index df))).

(** ** Collaborators *)

(** The arguments of the call [gsva_rs(...)], in order. *)
Record core_args := MkCoreArgs {
  arg_gene_name : list scalar;
  arg_gene_exp : list (list scalar);
  arg_gene_sets : Gmt;
  arg_kernel : bool;
  arg_rnaseq : bool;
  arg_mx_diff : bool;
  arg_abs_rnk : bool;
  arg_tau : Qc;
  arg_min_size : Z;
  arg_max_size : Z;
  arg_threads : Z;
}.

(** What is not defined in [gsva.py]: the Python runtime ([str] of a
    number, [os.path.isfile]), pandas' parser, the base class [GSEAbase]
    ([__init__], the [outdir] property, [load_gmt], [to_df]), [mkdirs] and
    the engine [gsva_rs] with the object it returns ([summaries],
    [indices], [rankings], and the indexing [rnk[ind]]). *)
Record Env := MkEnv {
  Summaries : Type;
  Ind : Type;
  Rnk : Type;
  Item : Type;
  str_of_num : Qc → string;
  isfile : string → bool;
  (* pd.read_csv(path, skiprows=k, comment="#", index_col=0, sep=sep) *)
  read_csv : string → nat → string → result DataFrame;
  base_init : option string → gene_sets_arg → string → Z → bool → GSEAbase;
  outdir : GSEAbase → string;
  mkdirs : string → result unit;
  load_gmt : list scalar → gene_sets_arg → result Gmt;
  gsva_rs : core_args → result (Summaries * list Ind * list Rnk);
  to_df : Summaries → Gmt → DataFrame → list Ind → result unit;
  getitem : Rnk → Ind → result Item;
}.

Inductive level := DEBUG | INFO | WARNING.

(** What [load_data] and [run] do to the outside, in order. *)
Inductive event :=
  | Log (lv : level) (msg : string)
  | LogFmt (lv : level) (fmt : string) (n : nat)     (* fmt % n *)
  | CallReadCsv (path : string) (skiprows : nat) (sep : string)
  | CallLoadGmt (gene_list : list scalar) (gs : gene_sets_arg)
  | CallMkdirs (path : string)
  | CallGsvaRs (args : core_args)
  | CallToDf.

Section GSVA.
Context (E : Env).

(** ** State, exceptions and the trace *)

(** The mutable state: the object itself and the heap its [data]
    attribute points into. *)
Record world := World {
  self : GSVA (Item E);
  heap : gmap loc pydata;
}.

(** What a piece of code leaves behind: a value or an exception, the
    state, and the events it caused, oldest first. *)
Record outcome (A : Type) := Outcome {
  value : result A;
  after : world;
  events : list event;
}.
Global Arguments Outcome {A} _ _ _.
Global Arguments value {A} _.
Global Arguments after {A} _.
Global Arguments events {A} _.

Definition M (A : Type) : Type := world → outcome A.

Global Instance M_ret : MRet M := λ A a σ, Outcome (Ok a) σ [].
Global Instance M_bind : MBind M := λ A B f m σ,
  let o := m σ in
  match value o with
  | Ok a => let o' := f a (after o) in
            Outcome (value o') (after o') (events o ++ events o')
  | Raise e => Outcome (Raise e) (after o) (events o)
  end.

Definition raise {A} (e : exn) : M A := λ σ, Outcome (Raise e) σ [].
Definition lift {A} (r : result A) : M A := λ σ, Outcome r σ [].
Definition emit (ev : event) : M unit := λ σ, Outcome (Ok tt) σ [ev].
Definition log (lv : level) (msg : string) : M unit := emit (Log lv msg).
Definition get_self : M (GSVA (Item E)) := λ σ, Outcome (Ok (self σ)) σ [].
Definition put_self (s : GSVA (Item E)) : M unit :=
  λ σ, Outcome (Ok tt) (World s (heap σ)) [].

(** Reading through a reference, writing through it, and a new object. *)
Definition deref (l : loc) : M pydata := λ σ,
  match heap σ !! l with
  | Some o => Outcome (Ok o) σ []
  | None => Outcome (Raise (OtherError "ReferenceError")) σ []
  end.
Definition store (l : loc) (o : pydata) : M unit :=
  λ σ, Outcome (Ok tt) (World (self σ) (<[l := o]> (heap σ))) [].
Definition alloc (o : pydata) : M loc := λ σ,
  let l := fresh (dom (heap σ)) in
  Outcome (Ok l) (World (self σ) (<[l := o]> (heap σ))) [].

(** Attribute assignments on [self]. *)
Definition with_data (l : loc) (s : GSVA (Item E)) : GSVA (Item E) :=
  MkGSVA (base s) l (tau s) (min_size s) (max_size s) (seed s) (mx_diff s)
    (abs_rnk s) (ranking s) (permutation_num s) (_noplot s) (kernel s)
    (rnaseq s) (permutation_type s) (gmt s).
Definition with_gmt (g : Gmt) (s : GSVA (Item E)) : GSVA (Item E) :=
  MkGSVA (base s) (data s) (tau s) (min_size s) (max_size s) (seed s) (mx_diff s)
    (abs_rnk s) (ranking s) (permutation_num s) (_noplot s) (kernel s)
    (rnaseq s) (permutation_type s) (Some g).
Definition with_ranking (r : list (Item E)) (s : GSVA (Item E)) : GSVA (Item E) :=
  MkGSVA (base s) (data s) (tau s) (min_size s) (max_size s) (seed s) (mx_diff s)
    (abs_rnk s) (Some r) (permutation_num s) (_noplot s) (kernel s)
    (rnaseq s) (permutation_type s) (gmt s).

(** [ser.name = n] on the object at [l]. *)
Definition with_name (n : pyname) (ser : Series) : Series :=
  MkSeries n (s_index ser) (s_dtype ser) (s_values ser).

(** ** [GSVA.__init__] *)

Definition init (data : loc) (gene_sets : gene_sets_arg) (outdir : option string)
    (kcdf : option string) (weight : Qc) (mx_diff abs_rnk : bool)
    (min_size max_size threads seed : Z) (verbose : bool) : GSVA (Item E) :=
  let b := base_init E outdir gene_sets "gsva" threads verbose in
  let k := kernel_of_kcdf kcdf in
  MkGSVA b data weight min_size max_size seed mx_diff abs_rnk None 0 true
    k.1 k.2 "gene_set" None.

(** ** [GSVA.load_data] *)

(** [str(x)] on a label, and [idx.astype(str)]. *)
Definition str_of (v : scalar) : string :=
  match v with
  | NA => "nan"
  | Num q => str_of_num E q
  | Str s => s
  end.
Definition astype_str (idx : Index) : Index :=
  MkIndex Object (Str ∘ str_of <$> idx_values idx).

Definition call_read_csv (path : string) (skiprows : nat) (sep : string) : M DataFrame :=
  emit (CallReadCsv path skiprows sep);; lift (read_csv E path skiprows sep).

(** Lines 110-120, common to the three kinds of input. *)
Definition fill_and_average (rank_metric : DataFrame) : M DataFrame :=
  rank_metric ←
    (if bool_decide (0 < sum (any (isnull rank_metric)))%nat then
       log WARNING "Input data contains NA, filled NA with 0";;
       mret (fillna0 rank_metric)
     else mret rank_metric);
  if bool_decide (0 < sum (duplicated (index rank_metric)))%nat then
    log WARNING "Found duplicated gene names, values averaged by gene names!";;
    lift (groupby_level0_mean rank_metric)
  else mret rank_metric.

(** Lines 69-108: the frame built from [self.data]. *)
Definition read_input : M DataFrame :=
  s ← get_self;
  exprs ← deref (data s);
  match exprs with
  | PyDataFrame df =>
      let rank_metric := df in                                (* exprs.copy() *)
      log DEBUG "Input data is a DataFrame with gene names";;
      rank_metric ←
        (if bool_decide (idx_dtype (index rank_metric) ≠ Object) then
           key ← lift (index_getitem0 (columns rank_metric));
           lift (set_index key rank_metric)
         else mret rank_metric);
      let rank_metric :=
        if bool_decide (idx_dtype (columns rank_metric) ≠ Object)
        then set_columns (astype_str (columns rank_metric)) rank_metric
        else rank_metric in
      mret (select_dtypes_number rank_metric)
  | PySeries ser =>
      log DEBUG "Input data is a Series with gene names";;
      match name ser with
      | NameNone => store (data s) (PySeries (with_name (NamePyStr "sample1") ser))
      | NameNp d v =>
          if bool_decide (d ≠ Object)
          then store (data s) (PySeries (with_name (NameNp Unicode (Str (str_of v))) ser))
          else mret tt
      | NamePyStr _ | NamePyInt _ => raise AttributeError     (* no .dtype *)
      end;;
      exprs ← deref (data s);
      match exprs with
      | PySeries ser => mret (to_frame ser)
      | _ => raise (OtherError "ReferenceError")
      end
  | PyStr exprs =>
      if isfile E exprs then
        rank_metric ←
          (if endswith exprs "gct" then call_read_csv exprs 1 TAB
           else
             let sep := if endswith exprs "csv" then "," else TAB in
             rank_metric ← call_read_csv exprs 0 sep;
             mret (if bool_decide (shape1 rank_metric = 1%nat)
                   then set_columns (astype_str (columns rank_metric)) rank_metric
                   else rank_metric));
        mret (select_dtypes_number rank_metric)
      else raise (Exception "Error parsing gene ranking values!")
  end.

Definition load_data : M DataFrame :=
  rank_metric ← read_input;
  fill_and_average rank_metric.

(** ** [GSVA.run] *)

(** Python truthiness of [self._outdir]. *)
Definition truthy (o : option string) : bool :=
  match o with None | Some "" => false | Some _ => true end.

Definition core_args_of (s : GSVA (Item E)) (df : DataFrame) (g : Gmt) : core_args :=
  MkCoreArgs (idx_values (index df)) (values_tolist df) g (kernel s) (rnaseq s)
    (mx_diff s) (abs_rnk s) (tau s) (min_size s) (max_size s) (_threads (base s)).

Definition run : M unit :=
  log INFO "Parsing data files for GSVA.............................";;
  df ← load_data;
  s ← get_self;
  df ←
    (if rnaseq s then
       log INFO "Poisson kernel selected. Clip negative values to 0 !";;
       lift (clip_lower0 df)
     else mret df);
  l ← alloc (PyDataFrame df);
  s ← get_self;
  put_self (with_data l s);;                                   (* self.data = df *)
  s ← get_self;
  emit (CallLoadGmt (idx_values (index df)) (gene_sets (base s)));;
  gmt ← lift (load_gmt E (idx_values (index df)) (gene_sets (base s)));
  put_self (with_gmt gmt s);;
  emit (LogFmt INFO "%04d gene_sets used for further statistical testing....." (length gmt));;
  log INFO "Start to run GSVA...Might take a while................";;
  s ← get_self;
  (if bool_decide (min_size s ≤ max_size s)%Z then mret tt else raise AssertionError);;
  (if truthy (_outdir (base s)) then
     emit (CallMkdirs (outdir E (base s)));; lift (mkdirs E (outdir E (base s)))
   else mret tt);;
  emit (CallGsvaRs (core_args_of s df gmt));;
  gsum ← lift (gsva_rs E (core_args_of s df gmt));
  let '(summaries, indices, rankings) := gsum in
  emit CallToDf;;
  lift (to_df E summaries gmt df indices);;
  rk ← lift (mapR (λ ri, getitem E ri.1 ri.2) (zip rankings indices));
  s ← get_self;
  put_self (with_ranking rk s);;
  log INFO "Done".

End GSVA.

Arguments World {E} _ _.
Arguments self {E} _.
Arguments heap {E} _.
Arguments Outcome {E A} _ _ _.
Arguments value {E A} _.
Arguments after {E A} _.
Arguments events {E A} _.

(** ** Invariants of the inputs *)

(** A pandas frame is rectangular: every column is as long as the index. *)
Definition wf_frame (df : DataFrame) : Prop :=
  Forall (λ lc : scalar * Column,
            length (col_values lc.2) = length (idx_values (index df))) (cols df).
Definition wf_series (ser : Series) : Prop :=
  length (s_values ser) = length (idx_values (s_index ser)).
Definition wf_data (o : pydata) : Prop :=
  match o with
  | PyDataFrame df => wf_frame df
  | PySeries ser => wf_series ser
  | PyStr _ => True
  end.

Global Instance wf_frame_dec df : Decision (wf_frame df).
Proof. unfold wf_frame. apply _. Defined.
Global Instance wf_data_dec o : Decision (wf_data o).
Proof. destruct o; unfold wf_data, wf_series; apply _. Defined.


(** Is the label a string? *)
Definition is_str (v : scalar) : bool :=
  match v with Str _ => true | _ => false end.

(** ** Definitions used to state and prove the properties *)

(** No cell of the frame is missing. *)
Definition no_na (df : DataFrame) : Prop :=
  Forall (λ lc : scalar * Column, NA ∉ col_values lc.2) (cols df).


(** Lines 71-80 as a function of the caller's frame. *)
Definition prepare_dataframe (E : Env) (d : DataFrame) : result DataFrame :=
  match
    (if bool_decide (idx_dtype (index d) ≠ Object) then
       match index_getitem0 (columns d) with
       | Ok key => set_index key d
       | Raise e => Raise e
       end
     else Ok d)
  with
  | Ok d1 =>
      Ok (select_dtypes_number
            (if bool_decide (columns_dtype d1 ≠ Object)
             then set_columns (astype_str E (columns d1)) d1 else d1))
  | Raise e => Raise e
  end.

(** Lines 84-88: the name the series has after the branch, if any. *)
Definition renamed (E : Env) (n : pyname) : result pyname :=
  match n with
  | NameNone => Ok (NamePyStr "sample1")
  | NameNp d v => Ok (if bool_decide (d ≠ Object) then NameNp Unicode (Str (str_of E v)) else n)
  | NamePyStr _ | NamePyInt _ => Raise AttributeError
  end.

(** Lines 92-106 as a function of the path of an existing file. *)
Definition prepare_file (E : Env) (path : string) : result DataFrame :=
  match
    (if endswith path "gct" then read_csv E path 1 TAB
     else match read_csv E path 0 (if endswith path "csv" then "," else TAB) with
          | Ok d => Ok (if bool_decide (shape1 d = 1%nat)
                        then set_columns (astype_str E (columns d)) d else d)
          | Raise e => Raise e
          end)
  with
  | Ok d => Ok (select_dtypes_number d)
  | Raise e => Raise e
  end.

(** Lines 110-120 as a function of the frame. *)
Definition cleaned (raw : DataFrame) : result DataFrame :=
  if bool_decide (NoDup (idx_values (index raw)))
  then Ok (fillna0 raw)
  else groupby_level0_mean (fillna0 raw).

(** The column has a numeric dtype. *)
Definition numeric (lc : scalar * Column) : Prop := Is_true (is_number (col_dtype lc.2)).

(** Relabelling the columns with a function of their labels. *)
Definition relabel_cols (f : scalar → scalar) (cs : list (scalar * Column)) :
    list (scalar * Column) :=
  (λ lc, (f lc.1, lc.2)) <$> cs.

(** Events of loading: logging and parsing. *)
Definition quiet (ev : event) : Prop :=
  match ev with
  | Log _ _ | CallReadCsv _ _ _ => True
  | _ => False
  end.


(** Lines 147-162: the call of the engine and what is done with its result. *)
Definition scoring (E : Env) (s : GSVA (Item E)) (df : DataFrame) (gmt : Gmt) : M E unit :=
  emit E (CallGsvaRs (core_args_of E s df gmt));;
  gsum ← lift E (gsva_rs E (core_args_of E s df gmt));
  let '(summaries, indices, rankings) := gsum in
  emit E CallToDf;;
  lift E (to_df E summaries gmt df indices);;
  rk ← lift E (mapR (λ ri, getitem E ri.1 ri.2) (zip rankings indices));
  s ← get_self E;
  put_self E (with_ranking E rk s);;
  log E INFO "Done".

(** Lines 144-162: what follows the assertion. *)
Definition engine (E : Env) (s : GSVA (Item E)) (df : DataFrame) (gmt : Gmt) : M E unit :=
  (if truthy (_outdir (base s)) then
     emit E (CallMkdirs (outdir E (base s)));; lift E (mkdirs E (outdir E (base s)))
   else mret tt);;
  scoring E s df gmt.

(** Lines 132-162: from [self.data = df] on. *)
Definition handoff (E : Env) (df : DataFrame) : M E unit :=
  l ← alloc E (PyDataFrame df);
  s ← get_self E;
  put_self E (with_data E l s);;
  s ← get_self E;
  emit E (CallLoadGmt (idx_values (index df)) (gene_sets (base s)));;
  gmt ← lift E (load_gmt E (idx_values (index df)) (gene_sets (base s)));
  put_self E (with_gmt E gmt s);;
  emit E (LogFmt INFO "%04d gene_sets used for further statistical testing....." (length gmt));;
  log E INFO "Start to run GSVA...Might take a while................";;
  s ← get_self E;
  (if bool_decide (min_size s ≤ max_size s)%Z then mret tt else raise E AssertionError);;
  engine E s df gmt.

(** Lines 128-162: what [run] does with the loaded frame. *)
Definition after_load (E : Env) (df : DataFrame) : M E unit :=
  s ← get_self E;
  df ←
    (if rnaseq s then
       log E INFO "Poisson kernel selected. Clip negative values to 0 !";;
       lift E (clip_lower0 df)
     else mret df);
  handoff E df.

(** What [run] has logged when it reaches the assertion, given the frame it
    passes on and the gene sets that survived. *)
Definition before_assert (E : Env) (s : GSVA (Item E)) (loaded : list event)
    (df : DataFrame) (g : Gmt) (rest : list event) : list event :=
  Log INFO "Parsing data files for GSVA............................." ::
  loaded ++
  (if rnaseq s then [Log INFO "Poisson kernel selected. Clip negative values to 0 !"] else []) ++
  CallLoadGmt (idx_values (index df)) (gene_sets (base s)) ::
  LogFmt INFO "%04d gene_sets used for further statistical testing....." (length g) ::
  Log INFO "Start to run GSVA...Might take a while................" :: rest.

(** The frame [run] hands to the gene-set filter and to the engine. *)
Definition passed_on (E : Env) (s : GSVA (Item E)) (df : DataFrame) : result DataFrame :=
  if rnaseq s then clip_lower0 df else Ok df.

(** All labels are strings. *)
Definition all_str (labels : list scalar) : Prop := Forall (λ l, Is_true (is_str l)) labels.



(** The engine calls among the events, oldest first. *)
Definition engine_calls (evs : list event) : list core_args :=
  omap (λ ev, match ev with CallGsvaRs a => Some a | _ => None end) evs.

(** An outcome with more events in front. *)
Definition after_events {E : Env} {A} (pre : list event) (o : outcome E A) : outcome E A :=
  Outcome (value o) (after o) (pre ++ events o).

(** The course of [run] as a function of what the collaborators return:
    one case for each place where it can stop. *)
Definition run_course (E : Env) (σ : world E) : outcome E unit :=
  let o := load_data E σ in
  let s := self σ in
  let start := Log INFO "Parsing data files for GSVA............................." in
  let poisson := Log INFO "Poisson kernel selected. Clip negative values to 0 !" in
  match value o with
  | Raise e => Outcome (Raise e) (after o) (start :: events o)
  | Ok df =>
      match passed_on E s df with
      | Raise e => Outcome (Raise e) (after o) (start :: events o ++ [poisson])
      | Ok df' =>
          let l := fresh (dom (heap (after o))) in
          let h := <[l := PyDataFrame df']> (heap (after o)) in
          let s1 := with_data E l s in
          let genes := idx_values (index df') in
          let pre1 :=
            start :: events o ++ (if rnaseq s then [poisson] else []) ++
            [CallLoadGmt genes (gene_sets (base s))] in
          match load_gmt E genes (gene_sets (base s)) with
          | Raise e => Outcome (Raise e) (World s1 h) pre1
          | Ok g =>
              let s2 := with_gmt E g s1 in
              let pre2 :=
                pre1 ++
                [LogFmt INFO "%04d gene_sets used for further statistical testing....."
                   (length g);
                 Log INFO "Start to run GSVA...Might take a while................"] in
              if bool_decide (min_size s ≤ max_size s)%Z then
                let made := truthy (_outdir (base s)) in
                let pre3 := pre2 ++ (if made then [CallMkdirs (outdir E (base s))] else []) in
                match (if made then mkdirs E (outdir E (base s)) else Ok tt) with
                | Raise e => Outcome (Raise e) (World s2 h) pre3
                | Ok _ =>
                    let a := core_args_of E s df' g in
                    match gsva_rs E a with
                    | Raise e => Outcome (Raise e) (World s2 h) (pre3 ++ [CallGsvaRs a])
                    | Ok (summaries, indices, rankings) =>
                        match to_df E summaries g df' indices with
                        | Raise e =>
                            Outcome (Raise e) (World s2 h) (pre3 ++ [CallGsvaRs a; CallToDf])
                        | Ok _ =>
                            match mapR (λ ri, getitem E ri.1 ri.2) (zip rankings indices) with
                            | Raise e =>
                                Outcome (Raise e) (World s2 h) (pre3 ++ [CallGsvaRs a; CallToDf])
                            | Ok rk =>
                                Outcome (Ok tt) (World (with_ranking E rk s2) h)
                                  (pre3 ++ [CallGsvaRs a; CallToDf; Log INFO "Done"])
                            end
                        end
                    end
                end
              else Outcome (Raise AssertionError) (World s2 h) pre2
          end
      end
  end.

(** Events that only [load_data] causes: its own log lines and the parser. *)
Definition loading_event (ev : event) : Prop :=
  match ev with
  | Log DEBUG _ | Log WARNING _ | CallReadCsv _ _ _ => True
  | _ => False
  end.

Global Instance no_na_dec df : Decision (no_na df).
Proof. unfold no_na. apply _. Defined.

(** The frame a result holds, the empty frame for an exception. *)
Definition frame_of (r : result DataFrame) : DataFrame :=
  match r with
  | Ok d => d
  | Raise _ => MkDataFrame (MkIndex Object []) Object []
  end.

(** The cells of the column are numbers or missing: none is a string. *)
Definition numbers_only (lc : scalar * Column) : Prop :=
  Forall (λ v, ¬ is_str v) (col_values lc.2).

(** ** A concrete environment and concrete inputs

    Used to run the definitions: a file system with two expression files,
    collaborators that always succeed. *)
Module Demo.

Definition Int (z : Z) : scalar := Num (Qc_of_Z z).

Definition parsed : DataFrame :=
  MkDataFrame (MkIndex Object [Str "TP53"; Str "EGFR"]) Object
    [(Str "s1", MkColumn Float64 [Int 1; NA]);
     (Str "s2", MkColumn Int64 [Int 7; Int (-3)]);
     (Str "note", MkColumn Object [Str "x"; Str "y"])].

Definition parser (path : string) (skiprows : nat) (sep : string) : result DataFrame :=
  if bool_decide (path ∈ ["expr.txt"; "expr.gct"]) then Ok parsed
  else Raise (OtherError "FileNotFoundError").

Definition py_str (q : Qc) : string :=
  if bool_decide (Qden q = 1%positive) then pretty (Qnum q)
  else pretty (Qnum q) +:+ "/" +:+ pretty (Zpos (Qden q)).

Definition env : Env :=
  {| Summaries := unit; Ind := nat; Rnk := list Z; Item := Z;
     str_of_num := py_str;
     isfile := λ p, bool_decide (p ∈ ["expr.txt"; "expr.gct"]);
     read_csv := parser;
     base_init := MkBase;
     outdir := λ b, default "" (_outdir b);
     mkdirs := λ _, Ok tt;
     load_gmt := λ _ _, Ok [("set1", ["TP53"; "EGFR"])];
     gsva_rs := λ _, Ok (tt, [0%nat], [[5%Z; 6%Z]]);
     to_df := λ _ _ _ _, Ok tt;
     getitem := λ r i, match r !! i with Some x => Ok x | None => Raise IndexError end |}.

(** A frame with a duplicated gene, a missing value, a negative value and
    a column of strings. *)
Definition frame : DataFrame :=
  MkDataFrame (MkIndex Object [Str "TP53"; Str "EGFR"; Str "TP53"]) Object
    [(Str "s1", MkColumn Float64 [Int 1; NA; Int 3]);
     (Str "s2", MkColumn Int64 [Int (-2); Int (-4); Int 5]);
     (Str "note", MkColumn Object [Str "x"; Str "y"; NA])].

(** The same genes, with column labels of mixed type: a string and the
    integer 1, hence an object-dtype column index. *)
Definition mixed_labels : DataFrame :=
  MkDataFrame (MkIndex Object [Str "TP53"; Str "EGFR"]) Object
    [(Str "s1", MkColumn Float64 [Int 1; Int 2]);
     (Int 1, MkColumn Float64 [Int 3; Int 4])].

Definition series (n : pyname) : Series :=
  MkSeries n (MkIndex Object [Str "TP53"; Str "EGFR"]) Float64 [Int 1; Int (-2)].

(** [GSVA(data, "sets.gmt", kcdf=kcdf, min_size=mn, max_size=mx)] with
    [data] the only object on the heap. *)
Definition start (o : pydata) (kcdf : option string) (mn mx : Z) : world env :=
  World (init env 0%nat (GsPath "sets.gmt") None kcdf 1 true false mn mx 1 123 false)
    {[ 0%nat := o ]}.

(** A run in Poisson mode on [frame], and the arguments with which it
    reaches the engine. *)
Definition poisson_start : world env := start (PyDataFrame frame) (Some "Poisson") 1 500.

Definition core_calls (evs : list event) : list core_args :=
  omap (λ ev, match ev with CallGsvaRs a => Some a | _ => None end) evs.

Definition poisson_args : core_args :=
  Eval vm_compute in
    default (MkCoreArgs [] [] [] false false false false 0 0 0 0)
            (head (core_calls (events (run env poisson_start)))).

End Demo.

(** More concrete inputs. *)
Module Inputs.

(** A frame with the default integer index and no column. *)
Definition no_columns : DataFrame :=
  MkDataFrame (MkIndex Int64 [Demo.Int 0; Demo.Int 1]) Object [].

(** A frame with the default integer index whose first column holds the
    gene names. *)
Definition numbered : DataFrame :=
  MkDataFrame (MkIndex Int64 [Demo.Int 0; Demo.Int 1]) Object
    [(Str "gene", MkColumn Object [Str "TP53"; Str "EGFR"]);
     (Str "s1", MkColumn Float64 [Demo.Int 1; Demo.Int 2])].

(** A frame that needs no cleaning. *)
Definition clean : DataFrame :=
  MkDataFrame (MkIndex Object [Str "TP53"; Str "EGFR"]) Object
    [(Str "s1", MkColumn Float64 [Demo.Int 1; Demo.Int 2]);
     (Str "s2", MkColumn Int64 [Demo.Int 3; Demo.Int (-4)])].

End Inputs.

(** * Properties *)

(** ** Facts about the pandas operations *)

Lemma sum_0 (l : list bool) : sum l = 0%nat → Forall (λ b, b = false) l.
Proof.
  unfold sum. induction l as [|b l IH]; intros H; [constructor|].
  rewrite filter_cons in H. destruct b; simpl in *.
  - destruct (decide (Is_true true)) as [|n]; [discriminate | by destruct n].
  - destruct (decide (Is_true false)) as [[]|]. constructor; auto.
Qed.

Lemma existsb_isna_false (vs : list scalar) :
  existsb id (isna <$> vs) = false → NA ∉ vs.
Proof.
  induction vs as [|v vs IH]; simpl; intros H.
  - apply not_elem_of_nil.
  - apply orb_false_iff in H as [Hv Hvs]. apply not_elem_of_cons. split; [|auto].
    intros <-. discriminate.
Qed.

Lemma isnull_none (df : DataFrame) :
  ¬ (0 < sum (any (isnull df)))%nat → no_na df.
Proof.
  intros H. assert (Hs : sum (any (isnull df)) = 0%nat) by lia.
  apply sum_0 in Hs. unfold any, isnull in Hs. rewrite <-list_fmap_compose in Hs.
  apply Forall_fmap in Hs. unfold no_na. eapply Forall_impl; [exact Hs|].
  intros lc Hlc. by apply existsb_isna_false.
Qed.



Lemma fill0_id (vs : list scalar) : NA ∉ vs → fill0 <$> vs = vs.
Proof.
  induction vs as [|v vs IH]; [done|]. intros H.
  apply not_elem_of_cons in H as [Hv Hvs]. rewrite fmap_cons, IH by done.
  by destruct v.
Qed.

Lemma fillna0_id (df : DataFrame) : no_na df → fillna0 df = df.
Proof.
  destruct df as [ix cd cs]. unfold no_na, fillna0; simpl. intros H. f_equal.
  induction cs as [|[l [d vs]] cs IH]; [done|].
  apply Forall_cons in H as [Hc Hcs]. simpl in Hc. rewrite fmap_cons, IH by done.
  simpl. by rewrite fill0_id.
Qed.


Lemma fillna0_labels (df : DataFrame) : (cols (fillna0 df)).*1 = (cols df).*1.
Proof.
  unfold fillna0; simpl. rewrite <-list_fmap_compose. by apply list_fmap_ext.
Qed.

Lemma duplicated_from_0 (seen l : list scalar) :
  sum (duplicated_from seen l) = 0%nat → NoDup l ∧ ∀ x, x ∈ l → x ∉ seen.
Proof.
  revert seen. induction l as [|x l IH]; intros seen H.
  - split; [constructor|]. intros x Hx. by apply elem_of_nil in Hx.
  - apply sum_0 in H. simpl in H. apply Forall_cons in H as [Hx Hl].
    apply bool_decide_eq_false in Hx.
    destruct (IH (x :: seen)) as [Hnd Hseen].
    { clear -Hl. unfold sum. induction Hl as [|b bs Hb _ IHl]; [done|].
      subst b. rewrite filter_cons. by destruct (decide (Is_true false)) as [[]|]. }
    split.
    + constructor; [|done]. intros Hin. apply (Hseen x Hin). by left.
    + intros y Hy. apply elem_of_cons in Hy as [->|Hy]; [done|].
      intros Hys. apply (Hseen y Hy). by right.
Qed.

Lemma duplicated_none (idx : Index) :
  ¬ (0 < sum (duplicated idx))%nat → NoDup (idx_values idx).
Proof.
  intros H. assert (Hs : sum (duplicated idx) = 0%nat) by lia.
  by apply duplicated_from_0 in Hs as [? _].
Qed.

Lemma duplicated_from_some (seen l : list scalar) :
  (0 < sum (duplicated_from seen l))%nat → ¬ (NoDup l ∧ ∀ x, x ∈ l → x ∉ seen).
Proof.
  revert seen. induction l as [|x l IH]; intros seen H [Hnd Hseen].
  - unfold sum in H. simpl in H. lia.
  - unfold sum in H. simpl in H. rewrite filter_cons in H.
    apply NoDup_cons in Hnd as [Hx Hnd].
    destruct (decide (Is_true (bool_decide (x ∈ seen)))) as [Hd|Hd].
    + apply bool_decide_unpack in Hd. apply (Hseen x); [by left|done].
    + apply (IH (x :: seen) H). split; [done|].
      intros y Hy Hin. apply elem_of_cons in Hin as [->|Hin]; [done|].
      apply (Hseen y); [by right|done].
Qed.

Lemma duplicated_some (idx : Index) :
  (0 < sum (duplicated idx))%nat → ¬ NoDup (idx_values idx).
Proof.
  intros H Hnd. apply (duplicated_from_some _ _ H). split; [done|].
  intros x _. apply not_elem_of_nil.
Qed.

Lemma mapR_ok {A B} (f : A → result B) (l : list A) (ys : list B) :
  mapR f l = Ok ys → Forall2 (λ x y, f x = Ok y) l ys.
Proof.
  revert ys. induction l as [|x l IH]; simpl; intros ys H.
  - injection H as <-. constructor.
  - destruct (f x) as [y|] eqn:Hx; [|discriminate].
    destruct (mapR f l) as [ys'|]; [|discriminate].
    injection H as <-. constructor; auto.
Qed.

Lemma group_keys_perm (labels : list scalar) :
  group_keys labels ≡ₚ remove_dups (filter (λ k, k ≠ NA) labels).
Proof. apply merge_sort_Permutation. Qed.


Lemma elem_of_group_keys (k : scalar) (labels : list scalar) :
  k ∈ group_keys labels ↔ k ∈ labels ∧ k ≠ NA.
Proof.
  rewrite group_keys_perm, elem_of_remove_dups, list_elem_of_filter. tauto.
Qed.

Lemma group_values_elem (k v : scalar) (labels vals : list scalar) :
  v ∈ group_values k labels vals → v ∈ vals.
Proof.
  unfold group_values. intros H. apply list_elem_of_fmap in H as ([l v'] & -> & H).
  apply list_elem_of_filter in H as [_ H]. simpl.
  apply elem_of_zip_r in H. done.
Qed.







Lemma clip_lower0_spec (df df' : DataFrame) :
  clip_lower0 df = Ok df' →
  index df' = index df ∧ columns_dtype df' = columns_dtype df ∧
  Forall2 (λ lc lc' : scalar * Column,
             lc'.1 = lc.1 ∧ col_dtype lc'.2 = col_dtype lc.2 ∧
             Forall2 (λ v v', clip0 v = Ok v') (col_values lc.2) (col_values lc'.2))
          (cols df) (cols df').
Proof.
  unfold clip_lower0. intros H.
  destruct (mapR _ (cols df)) as [cs|] eqn:Hcs; [|discriminate].
  injection H as <-. simpl. repeat split.
  apply mapR_ok in Hcs. eapply Forall2_impl; [exact Hcs|].
  intros lc lc' Hlc. simpl in Hlc.
  destruct (mapR clip0 _) as [vs|] eqn:Hvs; [|discriminate].
  injection Hlc as <-. simpl. repeat split. by apply mapR_ok.
Qed.





Ltac unfold_monad :=
  unfold mbind, M_bind, mret, M_ret, raise, lift, log, emit, get_self, put_self,
    deref, store, alloc, call_read_csv in *.

Section LoadData.
Context (E : Env).
Implicit Types (σ : world E) (df rank_metric : DataFrame).

Lemma bind_value {A B} (m : M E A) (f : A → M E B) σ :
  value ((m ≫= f) σ) =
    match value (m σ) with
    | Ok a => value (f a (after (m σ)))
    | Raise e => Raise e
    end.
Proof. unfold mbind, M_bind. by destruct (value (m σ)). Qed.

Lemma bind_after {A B} (m : M E A) (f : A → M E B) σ :
  after ((m ≫= f) σ) =
    match value (m σ) with
    | Ok a => after (f a (after (m σ)))
    | Raise e => after (m σ)
    end.
Proof. unfold mbind, M_bind. by destruct (value (m σ)). Qed.

Lemma bind_events {A B} (m : M E A) (f : A → M E B) σ :
  events ((m ≫= f) σ) =
    events (m σ) ++
    match value (m σ) with
    | Ok a => events (f a (after (m σ)))
    | Raise e => []
    end.
Proof. unfold mbind, M_bind. destruct (value (m σ)); [done|]. simpl. by rewrite app_nil_r. Qed.

(** Lines 110-120 leave the state alone and only log. *)
Lemma fill_and_average_after rank_metric σ :
  after (fill_and_average E rank_metric σ) = σ.
Proof.
  unfold fill_and_average. unfold_monad. simpl.
  repeat (case_bool_decide; simpl); done.
Qed.

Lemma fill_and_average_value rank_metric σ :
  value (fill_and_average E rank_metric σ) =
    if bool_decide (NoDup (idx_values (index rank_metric)))
    then Ok (fillna0 rank_metric)
    else groupby_level0_mean (fillna0 rank_metric).
Proof.
  unfold fill_and_average. unfold_monad. simpl.
  destruct (bool_decide (0 < sum (any (isnull rank_metric)))%nat) eqn:Hna; simpl.
  - destruct (bool_decide (0 < sum (duplicated (index rank_metric)))%nat) eqn:Hd; simpl.
    + apply bool_decide_eq_true in Hd. apply duplicated_some in Hd.
      rewrite bool_decide_eq_false_2 by done.
      by destruct (groupby_level0_mean _).
    + apply bool_decide_eq_false in Hd. apply duplicated_none in Hd.
      by rewrite bool_decide_eq_true_2.
  - apply bool_decide_eq_false in Hna. apply isnull_none in Hna.
    rewrite (fillna0_id _ Hna).
    destruct (bool_decide (0 < sum (duplicated (index rank_metric)))%nat) eqn:Hd; simpl.
    + apply bool_decide_eq_true in Hd. apply duplicated_some in Hd.
      rewrite bool_decide_eq_false_2 by done.
      by destruct (groupby_level0_mean _).
    + apply bool_decide_eq_false in Hd. apply duplicated_none in Hd.
      by rewrite bool_decide_eq_true_2.
Qed.

Lemma fill_and_average_events rank_metric σ ev :
  ev ∈ events (fill_and_average E rank_metric σ) → ∃ msg, ev = Log WARNING msg.
Proof.
  unfold fill_and_average. unfold_monad. simpl.
  repeat (case_bool_decide; simpl); intros Hev;
    repeat (apply elem_of_cons in Hev as [->|Hev]; [by eexists|]);
    by apply elem_of_nil in Hev.
Qed.
End LoadData.

Section ReadInput.
Context (E : Env).
Implicit Types (σ : world E) (df d : DataFrame).

Lemma read_input_dataframe σ d :
  heap σ !! data (self σ) = Some (PyDataFrame d) →
  read_input E σ =
    Outcome (prepare_dataframe E d) σ [Log DEBUG "Input data is a DataFrame with gene names"].
Proof.
  intros H. unfold read_input, prepare_dataframe. unfold_monad. simpl. rewrite H. simpl.
  case_bool_decide; simpl; [|done].
  destruct (index_getitem0 (columns d)) as [key|]; simpl; [|done].
  by destruct (set_index key d).
Qed.

Lemma read_input_series σ ser :
  heap σ !! data (self σ) = Some (PySeries ser) →
  read_input E σ =
    match renamed E (name ser) with
    | Ok n =>
        Outcome (Ok (to_frame (with_name n ser)))
          (World (self σ) (<[data (self σ) := PySeries (with_name n ser)]> (heap σ)))
          [Log DEBUG "Input data is a Series with gene names"]
    | Raise e => Outcome (Raise e) σ [Log DEBUG "Input data is a Series with gene names"]
    end.
Proof.
  intros H. unfold read_input, renamed. unfold_monad. simpl. rewrite H. simpl.
  destruct ser as [n ix dt vs]; simpl. destruct n as [|s|z|d v]; simpl; try done.
  - by rewrite lookup_insert_eq.
  - case_bool_decide as Hd; simpl.
    + by rewrite lookup_insert_eq.
    + rewrite H. simpl. unfold with_name; simpl. rewrite (insert_id _ _ _ H).
      by destruct σ.
Qed.

Lemma read_input_path σ path :
  heap σ !! data (self σ) = Some (PyStr path) →
  value (read_input E σ) =
    (if isfile E path then prepare_file E path
     else Raise (Exception "Error parsing gene ranking values!")) ∧
  after (read_input E σ) = σ ∧
  (isfile E path = false → events (read_input E σ) = []) ∧
  ∀ ev, ev ∈ events (read_input E σ) → ∃ p k sep, ev = CallReadCsv p k sep.
Proof.
  intros H. unfold read_input, prepare_file. unfold_monad. simpl. rewrite H. simpl.
  destruct (isfile E path); simpl; [|repeat split; try done; by intros ? ?%elem_of_nil].
  destruct (endswith path "gct"); simpl.
  - destruct (read_csv E path 1 TAB); simpl; repeat split; try done;
      intros ev Hev; repeat (apply elem_of_cons in Hev as [->|Hev]; [by repeat eexists|]);
      by apply elem_of_nil in Hev.
  - destruct (read_csv E path 0 _); simpl; repeat split; try done;
      intros ev Hev; repeat (apply elem_of_cons in Hev as [->|Hev]; [by repeat eexists|]);
      by apply elem_of_nil in Hev.
Qed.
End ReadInput.

Lemma zip_relabel (f : scalar → scalar) (cs : list (scalar * Column)) :
  zip (f <$> cs.*1) cs.*2 = relabel_cols f cs.
Proof. unfold relabel_cols. induction cs as [|[l c] cs IH]; [done|]. csimpl. by rewrite IH. Qed.

Lemma set_columns_astype (E : Env) (d : DataFrame) :
  set_columns (astype_str E (columns d)) d =
  MkDataFrame (index d) Object (relabel_cols (Str ∘ str_of E) (cols d)).
Proof. unfold set_columns, astype_str, columns. simpl. by rewrite zip_relabel. Qed.

Lemma filter_relabel (f : scalar → scalar) (cs : list (scalar * Column)) :
  filter numeric (relabel_cols f cs) = relabel_cols f (filter numeric cs).
Proof.
  unfold relabel_cols.
  induction cs as [|[l c] cs IH]; [done|]. rewrite fmap_cons, !filter_cons. simpl.
  unfold numeric at 1 3. simpl. destruct (decide _); by rewrite IH.
Qed.

Lemma set_index_first (d d1 : DataFrame) (key : scalar) :
  index_getitem0 (columns d) = Ok key → set_index key d = Ok d1 →
  ∃ c rest, cols d = (key, c) :: rest ∧ (key ∉ rest.*1) ∧
            d1 = MkDataFrame (MkIndex (col_dtype c) (col_values c)) (columns_dtype d) rest.
Proof.
  unfold index_getitem0, columns, set_index. simpl.
  destruct (cols d) as [|[k c] rest] eqn:Hc; simpl; [discriminate|].
  intros [= ->]. rewrite !filter_cons. simpl.
  destruct (decide (key = key)) as [_|]; [|done].
  destruct (decide (key ≠ key)) as [|_]; [done|].
  destruct (filter (λ lc : scalar * Column, lc.1 = key) rest) as [|x xs] eqn:Hf; [|discriminate].
  intros [= <-]. exists c, rest.
  assert (Hnot : key ∉ rest.*1).
  { intros Hin. apply list_elem_of_fmap in Hin as ([k' c'] & -> & Hin).
    assert (Hx : (k', c') ∈ filter (λ lc : scalar * Column, lc.1 = k') rest)
      by by apply list_elem_of_filter.
    simpl in Hf. rewrite Hf in Hx. by apply elem_of_nil in Hx. }
  repeat split; [done|]. f_equal.
  clear -Hnot. induction rest as [|[k' c'] rest IH]; [done|].
  rewrite fmap_cons in Hnot. apply not_elem_of_cons in Hnot as [Hk Hrest].
  rewrite filter_cons. simpl in *. destruct (decide (k' ≠ key)) as [|Hn]; [by rewrite IH|].
  destruct Hn. congruence.
Qed.






(** Grouping keeps the columns, their order and their labels. *)
Lemma groupby_level0_mean_shape (df df' : DataFrame) :
  groupby_level0_mean df = Ok df' →
  idx_values (index df') = group_keys (idx_values (index df)) ∧
  columns_dtype df' = columns_dtype df ∧
  Forall2 (λ lc lc' : scalar * Column, lc'.1 = lc.1 ∧ col_dtype lc'.2 = Float64)
          (cols df) (cols df').
Proof.
  unfold groupby_level0_mean. intros H.
  destruct (mapR _ (cols df)) as [cs|] eqn:Hcs; [|discriminate].
  injection H as <-. simpl. repeat split.
  apply mapR_ok in Hcs. eapply Forall2_impl; [exact Hcs|].
  intros lc lc' Hlc. simpl in Hlc.
  destruct (mapR _ (group_keys _)) as [vs|]; [|discriminate]. by injection Hlc as <-.
Qed.

(** Lines 110-120 keep the columns, their order and their labels, and
    numeric columns stay numeric. *)
Lemma cleaned_shape (raw df : DataFrame) :
  cleaned raw = Ok df →
  (cols df).*1 = (cols raw).*1 ∧ columns_dtype df = columns_dtype raw ∧
  (Forall numeric (cols raw) → Forall numeric (cols df)).
Proof.
  unfold cleaned. intros H. case_bool_decide as Hnd.
  - injection H as <-. split; [apply fillna0_labels|]. split; [done|].
    unfold fillna0. simpl. intros Hn. apply Forall_fmap.
    by eapply Forall_impl; [exact Hn|].
  - apply groupby_level0_mean_shape in H as (_ & Hcd & Hcols). split; [|split; [done|]].
    + rewrite <-(fillna0_labels raw). clear -Hcols.
      induction Hcols as [|lc lc' cs cs' (Hl & _) _ IH]; [done|].
      rewrite !fmap_cons. by rewrite IH, Hl.
    + intros _. apply Forall_forall. intros lc' Hlc'.
      apply list_elem_of_lookup in Hlc' as [i Hi].
      destruct (Forall2_lookup_r _ _ _ _ _ Hcols Hi) as (lc & _ & _ & Hd).
      unfold numeric. by rewrite Hd.
Qed.


Section Loading.
Context (E : Env).
Implicit Types (σ : world E) (df d : DataFrame).

Lemma load_data_value σ :
  value (load_data E σ) =
    match value (read_input E σ) with Ok raw => cleaned raw | Raise e => Raise e end.
Proof.
  unfold load_data. rewrite bind_value.
  destruct (value (read_input E σ)); [|done].
  by rewrite fill_and_average_value.
Qed.

Lemma load_data_after σ : after (load_data E σ) = after (read_input E σ).
Proof.
  unfold load_data. rewrite bind_after.
  destruct (value (read_input E σ)); [|done].
  by rewrite fill_and_average_after.
Qed.

Lemma read_input_cases σ :
  (∃ d, heap σ !! data (self σ) = Some (PyDataFrame d)) ∨
  (∃ ser, heap σ !! data (self σ) = Some (PySeries ser)) ∨
  (∃ p, heap σ !! data (self σ) = Some (PyStr p)) ∨
  (heap σ !! data (self σ) = None ∧
   read_input E σ = Outcome (Raise (OtherError "ReferenceError")) σ []).
Proof.
  destruct (heap σ !! data (self σ)) as [[d|ser|p]|] eqn:H; eauto.
  do 3 right. split; [done|]. unfold read_input. unfold_monad. simpl. by rewrite H.
Qed.

Lemma read_input_self σ : self (after (read_input E σ)) = self σ.
Proof.
  destruct (read_input_cases σ) as [[d H]|[[ser H]|[[p H]|[_ H]]]].
  - by rewrite (read_input_dataframe _ _ _ H).
  - rewrite (read_input_series _ _ _ H). by destruct (renamed E (name ser)).
  - apply read_input_path in H as (_ & -> & _). done.
  - by rewrite H.
Qed.

Lemma read_input_quiet σ : Forall quiet (events (read_input E σ)).
Proof.
  destruct (read_input_cases σ) as [[d H]|[[ser H]|[[p H]|[_ H]]]].
  - rewrite (read_input_dataframe _ _ _ H). simpl. by repeat constructor.
  - rewrite (read_input_series _ _ _ H).
    destruct (renamed E (name ser)); simpl; by repeat constructor.
  - apply read_input_path in H as (_ & _ & _ & H). apply Forall_forall.
    intros ev Hev. by destruct (H ev Hev) as (? & ? & ? & ->).
  - rewrite H. constructor.
Qed.

Lemma load_data_quiet σ : Forall quiet (events (load_data E σ)).
Proof.
  unfold load_data. rewrite bind_events.
  apply Forall_app. split; [apply read_input_quiet|].
  destruct (value (read_input E σ)); [|constructor].
  apply Forall_forall. intros ev Hev.
  by apply fill_and_average_events in Hev as [msg ->].
Qed.

Lemma load_data_self σ : self (after (load_data E σ)) = self σ.
Proof. by rewrite load_data_after, read_input_self. Qed.


End Loading.

Ltac step :=
  rewrite ?bind_events, ?bind_value, ?bind_after;
  cbn [log emit get_self put_self lift raise alloc mret M_ret
       value after events self heap app with_data with_gmt with_ranking
       base min_size max_size rnaseq].

Section RunPhases.
Context (E : Env).
Implicit Types (σ : world E) (df d : DataFrame).

Lemma core_args_of_with s l g df g' :
  core_args_of E (with_gmt E g (with_data E l s)) df g' = core_args_of E s df g'.
Proof. done. Qed.

Lemma scoring_spec s df g σ :
  heap (after (scoring E s df g σ)) = heap σ ∧
  ∀ args, CallGsvaRs args ∈ events (scoring E s df g σ) → args = core_args_of E s df g.
Proof.
  assert (∀ (a : core_args) (l : list event),
            CallGsvaRs a ∈ CallGsvaRs (core_args_of E s df g) :: l →
            Forall (λ ev, ∀ a', ev ≠ CallGsvaRs a') l → a = core_args_of E s df g) as Hin.
  { intros a l Ha Hl. apply elem_of_cons in Ha as [Ha|Ha]; [congruence|].
    rewrite Forall_forall in Hl. by destruct (Hl _ Ha a). }
  unfold scoring. step.
  destruct (gsva_rs E (core_args_of E s df g)) as [[[summaries indices] rankings]|e]; step;
    [|split; [done|]; intros a Ha; eapply Hin; [exact Ha|by repeat constructor]].
  destruct (to_df E summaries g df indices) as [[]|e]; step;
    [|split; [done|]; intros a Ha; eapply Hin; [exact Ha|by repeat constructor]].
  destruct (mapR _ (zip rankings indices)) as [rk|e]; step;
    split; try done; intros a Ha; (eapply Hin; [exact Ha|by repeat constructor]).
Qed.

Lemma engine_spec s df g σ :
  heap (after (engine E s df g σ)) = heap σ ∧
  ∀ args, CallGsvaRs args ∈ events (engine E s df g σ) → args = core_args_of E s df g.
Proof.
  unfold engine. rewrite bind_after, bind_events.
  destruct (truthy _).
  - step. destruct (mkdirs E (outdir E (base s))) as [[]|e]; step.
    + destruct (scoring_spec s df g σ) as [Hh Hev]. split; [done|].
      intros a Ha. apply elem_of_cons in Ha as [Ha|Ha]; [done|]. by apply Hev.
    + split; [done|]. intros a Ha. apply elem_of_cons in Ha as [Ha|Ha]; [done|].
      by apply elem_of_nil in Ha.
  - step. apply scoring_spec.
Qed.

Lemma run_phases :
  run E = (log E INFO "Parsing data files for GSVA.............................";;
           df ← load_data E; after_load E df).
Proof. done. Qed.

Lemma handoff_spec df σ :
  let l := fresh (dom (heap σ)) in
  let h := <[l := PyDataFrame df]> (heap σ) in
  let k := handoff E df σ in
  let call := CallLoadGmt (idx_values (index df)) (gene_sets (base (self σ))) in
  heap (after k) = h ∧
  match load_gmt E (idx_values (index df)) (gene_sets (base (self σ))) with
  | Raise e =>
      value k = Raise e ∧ self (after k) = with_data E l (self σ) ∧ events k = [call]
  | Ok g =>
      if bool_decide (min_size (self σ) ≤ max_size (self σ))%Z then
        ∃ rest, events k =
                  call ::
                  LogFmt INFO "%04d gene_sets used for further statistical testing....."
                    (length g) ::
                  Log INFO "Start to run GSVA...Might take a while................" :: rest ∧
                ∀ args, CallGsvaRs args ∈ rest → args = core_args_of E (self σ) df g
      else
        value k = Raise AssertionError ∧
        self (after k) = with_gmt E g (with_data E l (self σ)) ∧
        events k =
          [call;
           LogFmt INFO "%04d gene_sets used for further statistical testing....." (length g);
           Log INFO "Start to run GSVA...Might take a while................"]
  end.
Proof.
  intros l h k call. subst k call. unfold handoff. do 8 step.
  destruct (load_gmt E _ _) as [g|e]; step; [|done].
  do 6 step. destruct (bool_decide _); step; [|done].
  destruct (engine_spec (with_gmt E g (with_data E l (self σ))) df g
              (World (with_gmt E g (with_data E l (self σ))) h)) as [Hh Hev].
  split; [exact Hh|]. eexists. split; [done|]. exact Hev.
Qed.

(** The course of [run], phase by phase. *)
Lemma run_outcome σ :
  let o := load_data E σ in
  let s := self σ in
  match value o with
  | Raise e => value (run E σ) = Raise e ∧ heap (after (run E σ)) = heap (after o) ∧
               Forall quiet (events (run E σ))
  | Ok df =>
      match (if rnaseq s then clip_lower0 df else Ok df) with
      | Raise e => value (run E σ) = Raise e ∧ heap (after (run E σ)) = heap (after o) ∧
                   Forall quiet (events (run E σ))
      | Ok df' =>
          let l := fresh (dom (heap (after o))) in
          let h := <[l := PyDataFrame df']> (heap (after o)) in
          heap (after (run E σ)) = h ∧
          match load_gmt E (idx_values (index df')) (gene_sets (base s)) with
          | Raise e =>
              value (run E σ) = Raise e ∧ self (after (run E σ)) = with_data E l s ∧
              ∀ ev, ev ∈ events (run E σ) →
                    quiet ev ∨ ev = CallLoadGmt (idx_values (index df')) (gene_sets (base s))
          | Ok g =>
              if bool_decide (min_size s ≤ max_size s)%Z then
                ∃ rest, events (run E σ) = before_assert E s (events o) df' g rest ∧
                        ∀ args, CallGsvaRs args ∈ rest → args = core_args_of E s df' g
              else
                value (run E σ) = Raise AssertionError ∧
                self (after (run E σ)) = with_gmt E g (with_data E l s) ∧
                events (run E σ) = before_assert E s (events o) df' g []
          end
      end
  end.
Proof.
  intros o s. subst o s. pose proof (load_data_self E σ) as Hs.
  pose proof (load_data_quiet E σ) as Hq.
  rewrite run_phases. step.
  destruct (load_data E σ) as [[df|e] σ1 evs] eqn:Hld; cbn [value after events] in *;
    [|repeat split; [by constructor; [|rewrite app_nil_r]]].
  rewrite <-Hs. unfold after_load, before_assert. step.
  destruct (rnaseq (self σ1)) eqn:Hr; step.
  - destruct (clip_lower0 df) as [df'|e]; step.
    + destruct (handoff_spec df' σ1) as [Hh Hk]. split; [exact Hh|].
      destruct (load_gmt E _ _) as [g|e].
      * destruct (bool_decide _).
        -- destruct Hk as (rest & -> & Hrest). by exists rest.
        -- by destruct Hk as (-> & -> & ->).
      * destruct Hk as (-> & -> & ->). repeat split. intros ev Hin.
        apply elem_of_cons in Hin as [->|Hin]; [by left|].
        apply elem_of_app in Hin as [Hin|Hin].
        { left. rewrite Forall_forall in Hq. by apply Hq. }
        apply elem_of_cons in Hin as [->|Hin]; [by left|].
        apply elem_of_cons in Hin as [->|Hin]; [by right|]. by apply elem_of_nil in Hin.
    + repeat split. constructor; [done|]. apply Forall_app. split; [done|]. by repeat constructor.
  - destruct (handoff_spec df σ1) as [Hh Hk]. split; [exact Hh|].
    destruct (load_gmt E _ _) as [g|e].
    * destruct (bool_decide _).
      -- destruct Hk as (rest & -> & Hrest). by exists rest.
      -- by destruct Hk as (-> & -> & ->).
    * destruct Hk as (-> & -> & ->). repeat split. intros ev Hin.
      apply elem_of_cons in Hin as [->|Hin]; [by left|].
      apply elem_of_app in Hin as [Hin|Hin].
      { left. rewrite Forall_forall in Hq. by apply Hq. }
      apply elem_of_cons in Hin as [->|Hin]; [by right|]. by apply elem_of_nil in Hin.
Qed.
End RunPhases.

Section CoreCall.
Context (E : Env).
Implicit Types (σ : world E) (df d : DataFrame).

Lemma not_quiet_core ev args : quiet ev → ev ≠ CallGsvaRs args.
Proof. by intros H ->. Qed.

(** Whenever [run] calls the engine, loading, clamping and gene-set
    filtering have succeeded, the sizes are in order, and the arguments
    are built from the frame passed on. *)
Lemma run_core_call σ args :
  CallGsvaRs args ∈ events (run E σ) →
  ∃ df df' g,
    value (load_data E σ) = Ok df ∧ passed_on E (self σ) df = Ok df' ∧
    load_gmt E (idx_values (index df')) (gene_sets (base (self σ))) = Ok g ∧
    (min_size (self σ) ≤ max_size (self σ))%Z ∧
    args = core_args_of E (self σ) df' g.
Proof.
  intros Hin. pose proof (run_outcome E σ) as H. cbv zeta in H.
  pose proof (load_data_quiet E σ) as Hq. unfold passed_on.
  destruct (value (load_data E σ)) as [df|e].
  2:{ destruct H as (_ & _ & H). rewrite Forall_forall in H. by destruct (H _ Hin). }
  destruct (if rnaseq (self σ) then clip_lower0 df else Ok df) as [df'|e] eqn:Hc.
  2:{ destruct H as (_ & _ & H). rewrite Forall_forall in H. by destruct (H _ Hin). }
  destruct H as [_ H].
  destruct (load_gmt E _ _) as [g|e] eqn:Hg.
  2:{ destruct H as (_ & _ & H). by destruct (H _ Hin) as [?|?]. }
  case_bool_decide as Hsz.
  2:{ destruct H as (_ & _ & H). rewrite H in Hin. unfold before_assert in Hin.
      apply elem_of_cons in Hin as [?|Hin]; [done|].
      apply elem_of_app in Hin as [Hin|Hin].
      { rewrite Forall_forall in Hq. by destruct (Hq _ Hin). }
      apply elem_of_app in Hin as [Hin|Hin].
      { destruct (rnaseq (self σ)); [|by apply elem_of_nil in Hin].
        apply elem_of_cons in Hin as [?|Hin]; [done|]. by apply elem_of_nil in Hin. }
      repeat (apply elem_of_cons in Hin as [?|Hin]; [done|]). by apply elem_of_nil in Hin. }
  destruct H as (rest & H & Hrest). exists df, df', g. repeat split; try done.
  apply Hrest. rewrite H in Hin. unfold before_assert in Hin.
  apply elem_of_cons in Hin as [?|Hin]; [done|].
  apply elem_of_app in Hin as [Hin|Hin].
  { rewrite Forall_forall in Hq. by destruct (Hq _ Hin). }
  apply elem_of_app in Hin as [Hin|Hin].
  { destruct (rnaseq (self σ)); [|by apply elem_of_nil in Hin].
    apply elem_of_cons in Hin as [?|Hin]; [done|]. by apply elem_of_nil in Hin. }
  by repeat (apply elem_of_cons in Hin as [?|Hin]; [done|]).
Qed.
End CoreCall.

(** C4: the kernel configuration is a function of [kcdf] alone.
    "Gaussian"/"gaussian" give [kernel = True, rnaseq = False],
    "Poisson"/"poisson" give [kernel = True, rnaseq = True], every other
    value, [None] included, gives [kernel = False, rnaseq = False]; and
    these two flags are what [run] passes to the engine. *)
Theorem kcdf_selects_kernel (E : Env) (data : loc) (gs : gene_sets_arg) (outdir kcdf : option string)
    (weight : Qc) (mx_diff abs_rnk : bool) (min_size max_size threads seed : Z) (verbose : bool) :
  let s := init E data gs outdir kcdf weight mx_diff abs_rnk min_size max_size threads seed verbose in
  (kcdf ∈ [Some "Gaussian"; Some "gaussian"] → kernel s = true ∧ rnaseq s = false) ∧
  (kcdf ∈ [Some "Poisson"; Some "poisson"] → kernel s = true ∧ rnaseq s = true) ∧
  (kcdf ∉ [Some "Gaussian"; Some "gaussian"; Some "Poisson"; Some "poisson"] →
   kernel s = false ∧ rnaseq s = false) ∧
  (∀ h args, CallGsvaRs args ∈ events (run E (World s h)) →
             arg_kernel args = kernel s ∧ arg_rnaseq args = rnaseq s).
Proof.
  intros s. subst s. unfold init. cbn [kernel rnaseq]. unfold kernel_of_kcdf.
  split; [|split; [|split]].
  - intros H. by rewrite bool_decide_eq_true_2.
  - intros H. rewrite bool_decide_eq_false_2, bool_decide_eq_true_2; [done..|].
    intros H'. apply elem_of_cons in H as [->|H]; [|apply elem_of_cons in H as [->|H]].
    + repeat (apply elem_of_cons in H' as [[=]|H']); by apply elem_of_nil in H'.
    + repeat (apply elem_of_cons in H' as [[=]|H']); by apply elem_of_nil in H'.
    + by apply elem_of_nil in H.
  - intros H. rewrite !bool_decide_eq_false_2; [done|..].
    + intros H'. apply H. by do 2 right.
    + intros H'. apply H. apply elem_of_cons in H' as [->|H']; [by left|].
      apply elem_of_cons in H' as [->|H']; [by right; left|]. by apply elem_of_nil in H'.
  - intros h args Hin. apply run_core_call in Hin as (df & df' & g & _ & _ & _ & _ & ->). done.
Qed.

Lemma kcdf_selects_kernel_witness :
  kernel (init Demo.env 0%nat (GsPath "sets.gmt") None None 1 true false 15 500 1 123 false)
    = false ∧
  rnaseq (init Demo.env 0%nat (GsPath "sets.gmt") None None 1 true false 15 500 1 123 false)
    = false.
Proof.
  apply (proj1 (proj2 (proj2
           (kcdf_selects_kernel Demo.env 0%nat (GsPath "sets.gmt") None None 1 true false
              15 500 1 123 false)))).
  intros H. repeat (apply elem_of_cons in H as [[=]|H]). by apply elem_of_nil in H.
Defined.



(** C9: a Series whose [name] is a Python [str] makes [load_data] raise
    AttributeError; a Series that is loaded has the name [None] or a name
    with a [dtype]; and a Series without a name is loaded under the label
    "sample1". *)
Theorem series_name_needs_dtype (E : Env) (σ : world E) (ser : Series) :
  heap σ !! data (self σ) = Some (PySeries ser) →
  (∀ s, name ser = NamePyStr s → value (load_data E σ) = Raise AttributeError) ∧
  (∀ df, value (load_data E σ) = Ok df →
         name ser = NameNone ∨ ∃ d v, name ser = NameNp d v) ∧
  (∀ df, name ser = NameNone → value (load_data E σ) = Ok df →
         (cols df).*1 = [Str "sample1"]).
Proof.
  intros H. rewrite load_data_value, (read_input_series E σ ser H).
  split; [|split].
  - intros s ->. done.
  - intros df. destruct (name ser) as [|s|z|d v]; simpl; try done; eauto.
  - intros df ->. simpl. intros Hc. apply cleaned_shape in Hc as (Hl & _). by rewrite Hl.
Qed.

Lemma series_name_needs_dtype_witness :
  value (load_data Demo.env
           (Demo.start (PySeries (Demo.series (NamePyStr "tumour"))) None 15 500)) =
    Raise AttributeError.
Proof.
  apply (proj1 (series_name_needs_dtype Demo.env
                  (Demo.start (PySeries (Demo.series (NamePyStr "tumour"))) None 15 500)
                  (Demo.series (NamePyStr "tumour")) eq_refl)
               "tumour" eq_refl).
Defined.

Example series_without_name_loads :
  (λ r, match r with Ok df => (cols df).*1 | Raise _ => [] end)
    (value (load_data Demo.env (Demo.start (PySeries (Demo.series NameNone)) None 15 500))) =
    [Str "sample1"].
Proof. reflexivity. Qed.

Lemma select_dtypes_number_cols (d : DataFrame) :
  cols (select_dtypes_number d) = filter numeric (cols d).
Proof. done. Qed.

Lemma select_dtypes_number_numeric (d : DataFrame) :
  Forall numeric (cols (select_dtypes_number d)).
Proof.
  rewrite select_dtypes_number_cols. apply Forall_forall. intros lc Hlc.
  by apply list_elem_of_filter in Hlc as [? _].
Qed.

Lemma relabel_labels (f : scalar → scalar) (cs : list (scalar * Column)) :
  (relabel_cols f cs).*1 = f <$> cs.*1.
Proof. unfold relabel_cols. rewrite <-!list_fmap_compose. by apply list_fmap_ext. Qed.

(** The columns a frame keeps: the numeric ones among those left after
    the first column has become the index, relabelled when the column index
    is not of object dtype. *)
Lemma prepare_dataframe_labels (E : Env) (d raw : DataFrame) :
  prepare_dataframe E d = Ok raw →
  Forall numeric (cols raw) ∧
  (cols raw).*1 =
    (λ l, if bool_decide (columns_dtype d ≠ Object) then Str (str_of E l) else l) <$>
    (filter numeric
       (if bool_decide (idx_dtype (index d) ≠ Object) then tail (cols d) else cols d)).*1.
Proof.
  unfold prepare_dataframe. intros H.
  assert (∀ d1, columns_dtype d1 = columns_dtype d →
            (cols (select_dtypes_number
               (if bool_decide (columns_dtype d1 ≠ Object)
                then set_columns (astype_str E (columns d1)) d1 else d1))).*1 =
            (λ l, if bool_decide (columns_dtype d ≠ Object) then Str (str_of E l) else l) <$>
            (filter numeric (cols d1)).*1) as Hsel.
  { intros d1 ->. rewrite select_dtypes_number_cols.
    destruct (bool_decide (columns_dtype d ≠ Object)).
    - rewrite set_columns_astype. cbn [cols]. by rewrite filter_relabel, relabel_labels.
    - by rewrite list_fmap_id. }
  destruct (bool_decide (idx_dtype (index d) ≠ Object)).
  - destruct (index_getitem0 (columns d)) as [key|] eqn:Hk; [|discriminate].
    destruct (set_index key d) as [d1|] eqn:Hs; [|discriminate].
    injection H as <-. split; [apply select_dtypes_number_numeric|].
    destruct (set_index_first _ _ _ Hk Hs) as (c & rest & Hc & _ & Hd1).
    rewrite Hsel by (by subst d1). subst d1. by rewrite Hc.
  - injection H as <-. split; [apply select_dtypes_number_numeric|]. by apply Hsel.
Qed.

Lemma prepare_file_labels (E : Env) (path : string) (raw : DataFrame) :
  prepare_file E path = Ok raw →
  ∃ parsed,
    read_csv E path (if endswith path "gct" then 1%nat else 0%nat)
      (if endswith path "gct" then TAB else if endswith path "csv" then "," else TAB)
      = Ok parsed ∧
    Forall numeric (cols raw) ∧
    (cols raw).*1 =
      (λ l, if negb (endswith path "gct") && bool_decide (shape1 parsed = 1%nat)
            then Str (str_of E l) else l) <$> (filter numeric (cols parsed)).*1.
Proof.
  unfold prepare_file. intros H. destruct (endswith path "gct"); simpl.
  - destruct (read_csv E path 1 TAB) as [d|] eqn:Hr; [|discriminate].
    injection H as <-. exists d. split; [done|].
    split; [apply select_dtypes_number_numeric|].
    by rewrite select_dtypes_number_cols, list_fmap_id.
  - destruct (read_csv E path 0 _) as [d|] eqn:Hr; [|discriminate].
    injection H as <-. exists d. split; [done|].
    split; [apply select_dtypes_number_numeric|].
    rewrite select_dtypes_number_cols. destruct (bool_decide (shape1 d = 1%nat)).
    + rewrite set_columns_astype. cbn [cols]. by rewrite filter_relabel, relabel_labels.
    + by rewrite list_fmap_id.
Qed.

Lemma passed_on_shape (E : Env) (s : GSVA (Item E)) (df df' : DataFrame) :
  passed_on E s df = Ok df' →
  index df' = index df ∧ (cols df').*1 = (cols df).*1 ∧ length (cols df') = length (cols df).
Proof.
  unfold passed_on. destruct (rnaseq s); [|by intros [= <-]].
  intros H. apply clip_lower0_spec in H as (Hi & _ & Hc). split; [done|].
  split; [|symmetry; by eapply Forall2_length].
  clear -Hc. induction Hc as [|lc lc' cs cs' (Hl & _) _ IH]; [done|].
  rewrite !fmap_cons. by rewrite IH, Hl.
Qed.

(** The labels [load_data] returns, for a frame and for a file. *)
Lemma non_numeric_columns_dropped_aux (E : Env) (σ : world E) (df : DataFrame) :
  value (load_data E σ) = Ok df →
  (∀ d, heap σ !! data (self σ) = Some (PyDataFrame d) →
        Forall numeric (cols df) ∧
        (cols df).*1 =
          (λ l, if bool_decide (columns_dtype d ≠ Object) then Str (str_of E l) else l) <$>
          (filter numeric
             (if bool_decide (idx_dtype (index d) ≠ Object) then tail (cols d) else cols d)).*1) ∧
  (∀ path, heap σ !! data (self σ) = Some (PyStr path) →
        ∃ parsed,
          read_csv E path (if endswith path "gct" then 1%nat else 0%nat)
            (if endswith path "gct" then TAB else if endswith path "csv" then "," else TAB)
            = Ok parsed ∧
          Forall numeric (cols df) ∧
          (cols df).*1 =
            (λ l, if negb (endswith path "gct") && bool_decide (shape1 parsed = 1%nat)
                  then Str (str_of E l) else l) <$> (filter numeric (cols parsed)).*1).
Proof.
  intros Hld. split.
  - intros d Hd. rewrite load_data_value, (read_input_dataframe E σ d Hd) in Hld. simpl in Hld.
    destruct (prepare_dataframe E d) as [raw|] eqn:Hraw; [|discriminate].
    apply prepare_dataframe_labels in Hraw as [Hnum Hlab].
    apply cleaned_shape in Hld as (Hl & _ & Hn). rewrite Hl. auto.
  - intros path Hp. rewrite load_data_value in Hld.
    destruct (read_input_path E σ path Hp) as (Hv & _). rewrite Hv in Hld.
    destruct (isfile E path); [|discriminate].
    destruct (prepare_file E path) as [raw|] eqn:Hraw; [|discriminate].
    apply prepare_file_labels in Hraw as (parsed & Hr & Hnum & Hlab).
    apply cleaned_shape in Hld as (Hl & _ & Hn). exists parsed. rewrite Hl. auto.
Qed.



Lemma all_str_coerced (E : Env) (labels : list scalar) :
  all_str ((λ l, Str (str_of E l)) <$> labels).
Proof. apply Forall_fmap, Forall_forall. by intros l _. Qed.

Lemma filter_labels_subseteq (cs : list (scalar * Column)) :
  (filter numeric cs).*1 ⊆ cs.*1.
Proof.
  intros l Hl. apply list_elem_of_fmap in Hl as (lc & -> & Hlc).
  apply list_elem_of_filter in Hlc as [_ Hlc]. apply list_elem_of_fmap. eauto.
Qed.

(** C7, amended: [load_data] makes the column labels strings where the
    code coerces them: for a DataFrame whose column index is not of object
    dtype, for a Series without a name ("sample1") or whose name has a
    non-object dtype, and for a file that is not a GCT file and parses to one
    column.  Otherwise the labels are labels of the input, as they came. *)
Theorem column_labels_coerced (E : Env) (σ : world E) (df : DataFrame) :
  value (load_data E σ) = Ok df →
  (∀ d, heap σ !! data (self σ) = Some (PyDataFrame d) →
        (columns_dtype d ≠ Object → all_str (cols df).*1) ∧
        (columns_dtype d = Object → (cols df).*1 ⊆ (cols d).*1)) ∧
  (∀ ser, heap σ !! data (self σ) = Some (PySeries ser) →
        (name ser = NameNone → (cols df).*1 = [Str "sample1"]) ∧
        (∀ dt v, name ser = NameNp dt v →
                 (cols df).*1 = [if bool_decide (dt ≠ Object) then Str (str_of E v) else v])) ∧
  (∀ path, heap σ !! data (self σ) = Some (PyStr path) →
        ∃ parsed,
          read_csv E path (if endswith path "gct" then 1%nat else 0%nat)
            (if endswith path "gct" then TAB else if endswith path "csv" then "," else TAB)
            = Ok parsed ∧
          (endswith path "gct" = false → shape1 parsed = 1%nat → all_str (cols df).*1) ∧
          (endswith path "gct" = true ∨ shape1 parsed ≠ 1%nat →
           (cols df).*1 ⊆ (cols parsed).*1)).
Proof.
  intros Hld. split; [|split].
  - intros d Hd.
    destruct (non_numeric_columns_dropped_aux E σ df Hld) as (Hdf & _).
    destruct (Hdf d Hd) as [_ ->]. split.
    + intros Hne. rewrite bool_decide_eq_true_2 by done. apply all_str_coerced.
    + intros Heq. rewrite bool_decide_eq_false_2 by (by intros ?). rewrite list_fmap_id.
      etrans; [apply filter_labels_subseteq|].
      destruct (bool_decide _); [|done]. destruct (cols d) as [|c cs]; [done|].
      simpl. intros l Hl. by right.
  - intros ser Hser. rewrite load_data_value, (read_input_series E σ ser Hser) in Hld.
    split.
    + intros Hn. rewrite Hn in Hld. simpl in Hld.
      apply cleaned_shape in Hld as (Hl & _). by rewrite Hl.
    + intros dt v Hn. rewrite Hn in Hld. simpl in Hld.
      apply cleaned_shape in Hld as (Hl & _). rewrite Hl. simpl.
      by destruct (bool_decide (dt ≠ Object)).
  - intros path Hp.
    destruct (non_numeric_columns_dropped_aux E σ df Hld) as (_ & Hf).
    destruct (Hf path Hp) as (parsed & Hr & _ & ->). exists parsed. split; [done|]. split.
    + intros -> Hs. simpl. rewrite bool_decide_eq_true_2 by done. apply all_str_coerced.
    + intros Hor.
      assert (negb (endswith path "gct") && bool_decide (shape1 parsed = 1%nat) = false) as ->.
      { destruct Hor as [->|Hs]; [done|]. rewrite (bool_decide_eq_false_2 _ Hs).
        apply andb_false_r. }
      rewrite list_fmap_id. apply filter_labels_subseteq.
Qed.

Lemma column_labels_coerced_witness :
  (cols (MkDataFrame (MkIndex Object [Str "TP53"; Str "EGFR"]) Object
           [(Str "sample1", MkColumn Float64 [Demo.Int 1; Demo.Int (-2)])])).*1 =
    [Str "sample1"].
Proof.
  apply (proj1 (proj1 (proj2 (column_labels_coerced Demo.env
                                (Demo.start (PySeries (Demo.series NameNone)) None 15 500)
                                _ eq_refl))
                      (Demo.series NameNone) eq_refl)
               eq_refl).
Defined.

(** C7 as stated fails: a DataFrame whose column index holds the string
    "s1" and the integer 1 (object dtype) is accepted and returned with
    the integer label. *)
Lemma mixed_labels_not_coerced :
  value (load_data Demo.env (Demo.start (PyDataFrame Demo.mixed_labels) None 15 500)) =
    Ok Demo.mixed_labels ∧
  (cols Demo.mixed_labels).*1 = [Str "s1"; Demo.Int 1] ∧
  ¬ all_str (cols Demo.mixed_labels).*1.
Proof.
  split; [reflexivity|]. split; [reflexivity|].
  intros H. apply Forall_cons in H as [_ H]. apply Forall_cons in H as [H _]. exact H.
Qed.










Section Clean.
Context (E : Env).
Implicit Types (σ : world E) (df raw : DataFrame).



End Clean.









(** * Further properties

    The course of [run] case by case, and what follows from it; then
    [load_data] on each kind of input. *)

Lemma bind_outcome {E : Env} {A B} (m : M E A) (f : A → M E B) σ :
  (m ≫= f) σ =
    match value (m σ) with
    | Ok a => after_events (events (m σ)) (f a (after (m σ)))
    | Raise e => Outcome (Raise e) (after (m σ)) (events (m σ))
    end.
Proof. unfold mbind, M_bind, after_events. by destruct (value (m σ)). Qed.

Ltac ostep :=
  rewrite ?bind_outcome;
  cbn [log emit get_self put_self lift raise alloc mret M_ret
       value after events self heap app with_data with_gmt with_ranking
       base min_size max_size rnaseq after_events].

Section Outcomes.
Context (E : Env).
Implicit Types (σ : world E) (df d : DataFrame).

(** Lines 147-162, case by case. *)
Lemma scoring_outcome s df g σ :
  scoring E s df g σ =
    let a := core_args_of E s df g in
    match gsva_rs E a with
    | Raise e => Outcome (Raise e) σ [CallGsvaRs a]
    | Ok (summaries, indices, rankings) =>
        match to_df E summaries g df indices with
        | Raise e => Outcome (Raise e) σ [CallGsvaRs a; CallToDf]
        | Ok _ =>
            match mapR (λ ri, getitem E ri.1 ri.2) (zip rankings indices) with
            | Raise e => Outcome (Raise e) σ [CallGsvaRs a; CallToDf]
            | Ok rk =>
                Outcome (Ok tt) (World (with_ranking E rk (self σ)) (heap σ))
                  [CallGsvaRs a; CallToDf; Log INFO "Done"]
            end
        end
    end.
Proof.
  unfold scoring. cbv zeta. do 2 ostep.
  destruct (gsva_rs E (core_args_of E s df g)) as [[[summaries indices] rankings]|e]; [|done].
  do 3 ostep.
  destruct (to_df E summaries g df indices) as [[]|e]; [|done].
  do 2 ostep.
  destruct (mapR _ (zip rankings indices)) as [rk|e]; [|done].
  do 4 ostep. done.
Qed.

(** Lines 144-162, case by case. *)
Lemma engine_outcome s df g σ :
  engine E s df g σ =
    if truthy (_outdir (base s)) then
      match mkdirs E (outdir E (base s)) with
      | Ok _ => after_events [CallMkdirs (outdir E (base s))] (scoring E s df g σ)
      | Raise e => Outcome (Raise e) σ [CallMkdirs (outdir E (base s))]
      end
    else scoring E s df g σ.
Proof.
  unfold engine. rewrite bind_outcome.
  destruct (truthy (_outdir (base s))).
  - do 2 ostep. destruct (mkdirs E (outdir E (base s))) as [[]|e]; [|done].
    by ostep.
  - ostep. by destruct (scoring E s df g σ).
Qed.

(** Lines 132-162, case by case. *)
Lemma handoff_outcome df σ :
  handoff E df σ =
    let l := fresh (dom (heap σ)) in
    let h := <[l := PyDataFrame df]> (heap σ) in
    let s1 := with_data E l (self σ) in
    let call := CallLoadGmt (idx_values (index df)) (gene_sets (base (self σ))) in
    match load_gmt E (idx_values (index df)) (gene_sets (base (self σ))) with
    | Raise e => Outcome (Raise e) (World s1 h) [call]
    | Ok g =>
        let s2 := with_gmt E g s1 in
        let logs :=
          [call;
           LogFmt INFO "%04d gene_sets used for further statistical testing....." (length g);
           Log INFO "Start to run GSVA...Might take a while................"] in
        if bool_decide (min_size (self σ) ≤ max_size (self σ))%Z
        then after_events logs (engine E s2 df g (World s2 h))
        else Outcome (Raise AssertionError) (World s2 h) logs
    end.
Proof.
  unfold handoff. cbv zeta. do 6 ostep.
  destruct (load_gmt E _ _) as [g|e]; [|done].
  do 5 ostep.
  destruct (bool_decide _); ostep; [|done].
  by destruct (engine E _ df g _).
Qed.
End Outcomes.

Ltac course_done :=
  unfold after_events; cbn [value after events app];
  first [done | f_equal; first [done | destruct (rnaseq _); cbn [app]; by rewrite <-?app_assoc]].

Section Course.
Context (E : Env).
Implicit Types (σ : world E) (df d : DataFrame).

Lemma after_load_outcome df σ :
  after_load E df σ =
    match passed_on E (self σ) df with
    | Ok df' =>
        after_events
          (if rnaseq (self σ)
           then [Log INFO "Poisson kernel selected. Clip negative values to 0 !"] else [])
          (handoff E df' σ)
    | Raise e =>
        Outcome (Raise e) σ [Log INFO "Poisson kernel selected. Clip negative values to 0 !"]
    end.
Proof.
  unfold after_load, passed_on. do 2 ostep.
  destruct (rnaseq (self σ)).
  - do 2 ostep. destruct (clip_lower0 df) as [df'|e]; [|done]. by ostep.
  - ostep. by destruct (handoff E df σ).
Qed.

Lemma run_course_spec σ : run E σ = run_course E σ.
Proof.
  pose proof (load_data_self E σ) as Hs.
  rewrite run_phases. unfold run_course. cbv zeta. do 2 ostep.
  destruct (load_data E σ) as [[df|e] σ1 evs]; cbn [value after events] in *; [|done].
  rewrite after_load_outcome, Hs.
  destruct (passed_on E (self σ) df) as [df'|e]; [|done].
  rewrite handoff_outcome. cbv zeta. rewrite Hs.
  destruct (load_gmt E _ _) as [g|e].
  2:{ course_done. }
  destruct (bool_decide _).
  2:{ course_done. }
  rewrite engine_outcome, scoring_outcome. cbv zeta.
  rewrite !core_args_of_with.
  cbn [base with_gmt with_data].
  destruct (truthy _).
  - destruct (mkdirs E _) as [[]|e].
    2:{ course_done. }
    destruct (gsva_rs E _) as [[[summaries indices] rankings]|e].
    2:{ course_done. }
    destruct (to_df E _ _ _ _) as [[]|e].
    2:{ course_done. }
    destruct (mapR _ _) as [rk|e];
      course_done.
  - destruct (gsva_rs E _) as [[[summaries indices] rankings]|e].
    2:{ course_done. }
    destruct (to_df E _ _ _ _) as [[]|e].
    2:{ course_done. }
    destruct (mapR _ _) as [rk|e];
      course_done.
Qed.
End Course.

(** Splits the course of [run] into its cases, naming what each
    collaborator returned. *)
Ltac course_scoring E :=
  cbv iota in *;
  destruct (gsva_rs E _) as [[[?summaries ?indices] ?rankings]|?e] eqn:Hrs;
  [destruct (to_df E _ _ _ _) as [[]|?e] eqn:Hdf;
   [destruct (mapR _ (zip _ _)) as [?rk|?e] eqn:Hrk|]|].

Ltac course_tail E σ :=
  destruct (load_gmt E _ _) as [?g|?e] eqn:Hgmt;
  [destruct (bool_decide (min_size (self σ) ≤ max_size (self σ))%Z) eqn:Hsize;
   [destruct (truthy (_outdir (base (self σ)))) eqn:Hout;
    [destruct (mkdirs E _) as [[]|?e] eqn:Hmk; [course_scoring E|]
    |course_scoring E]|]|];
  cbn [value after events self heap] in *.

Ltac course E σ :=
  rewrite ?(run_course_spec E σ) in *; unfold run_course in *; cbv zeta in *;
  destruct (value (load_data E σ)) as [?df|?e] eqn:Hld;
  [destruct (passed_on E (self σ) _) as [?df'|?e] eqn:Hpass; [course_tail E σ|]|];
  cbn [value after events self heap] in *.

(** ** Helper lemmas for the course of [run] *)

Lemma mapR_raise {A B} (f : A → result B) (l : list A) (e : exn) :
  mapR f l = Raise e → ∃ x, x ∈ l ∧ f x = Raise e.
Proof.
  induction l as [|x l IH]; simpl; [discriminate|].
  destruct (f x) as [y|e'] eqn:Hx.
  - destruct (mapR f l) as [ys|e'']; [discriminate|].
    intros [= ->]. destruct IH as (x' & ? & ?); [done|]. exists x'. split; [by right|done].
  - intros [= ->]. exists x. split; [by left|done].
Qed.

Lemma engine_calls_app (l k : list event) :
  engine_calls (l ++ k) = engine_calls l ++ engine_calls k.
Proof. apply omap_app. Qed.

Lemma engine_calls_cons (ev : event) (l : list event) :
  engine_calls (ev :: l) = engine_calls [ev] ++ engine_calls l.
Proof. apply (engine_calls_app [ev] l). Qed.

Lemma engine_calls_quiet (l : list event) : Forall quiet l → engine_calls l = [].
Proof.
  induction 1 as [|ev l Hev _ IH]; [done|].
  destruct ev; try done; exact IH.
Qed.

Lemma elem_of_engine_calls (a : core_args) (l : list event) :
  a ∈ engine_calls l ↔ CallGsvaRs a ∈ l.
Proof.
  unfold engine_calls. rewrite list_elem_of_omap. split.
  - intros (ev & Hev & Ha). destruct ev; try discriminate. by injection Ha as ->.
  - intros H. by exists (CallGsvaRs a).
Qed.

Lemma load_data_loading_events (E : Env) (σ : world E) :
  Forall loading_event (events (load_data E σ)).
Proof.
  unfold load_data. rewrite bind_events. apply Forall_app. split.
  - destruct (read_input_cases E σ) as [[d H]|[[ser H]|[[p H]|[_ H]]]].
    + rewrite (read_input_dataframe _ _ _ H). by repeat constructor.
    + rewrite (read_input_series _ _ _ H).
      destruct (renamed E (name ser)); by repeat constructor.
    + apply read_input_path in H as (_ & _ & _ & H). apply Forall_forall.
      intros ev Hev. by destruct (H ev Hev) as (? & ? & ? & ->).
    + rewrite H. constructor.
  - destruct (value (read_input E σ)); [|constructor].
    apply Forall_forall. intros ev Hev.
    by apply fill_and_average_events in Hev as [msg ->].
Qed.

Lemma loading_event_not (l : list event) (ev : event) :
  Forall loading_event l → ¬ loading_event ev → ev ∉ l.
Proof. intros Hl Hev Hin. rewrite Forall_forall in Hl. by apply Hev, Hl. Qed.

(** Closes a goal with a hypothesis that places an event in a trace where
    it cannot be. *)
Ltac absurd_event H :=
  exfalso;
  repeat match type of H with
         | _ ∈ _ ++ _ => apply elem_of_app in H as [H|H]
         | _ ∈ _ :: _ => apply elem_of_cons in H as [H|H]
         | _ ∈ [] => apply elem_of_nil in H
         | _ ∈ (if ?b then _ else _) => destruct b
         | False => destruct H
         | _ = _ => discriminate H
         end; done.

(** Finds an event in a trace that is written out. *)
Ltac in_events :=
  cbn [events];
  repeat (progress rewrite ?elem_of_cons, ?elem_of_app, ?elem_of_nil); auto 12.

(** ** Properties of [run] *)

(** X1: when [run] returns, loading, the clamp of Poisson mode and the
    gene-set filter have succeeded and the sizes are in order; the object
    then has the matrix that was passed on as [data], in a new object of the
    heap, the filtered gene sets as [gmt] and a list as [ranking], and every
    other attribute and every other object is as [load_data] left it. *)
Theorem run_success (E : Env) (σ : world E) :
  value (run E σ) = Ok tt →
  ∃ df df' g rk,
    value (load_data E σ) = Ok df ∧
    passed_on E (self σ) df = Ok df' ∧
    load_gmt E (idx_values (index df')) (gene_sets (base (self σ))) = Ok g ∧
    (min_size (self σ) ≤ max_size (self σ))%Z ∧
    heap (after (load_data E σ)) !! fresh (dom (heap (after (load_data E σ)))) = None ∧
    after (run E σ) =
      World (with_ranking E rk
               (with_gmt E g
                  (with_data E (fresh (dom (heap (after (load_data E σ))))) (self σ))))
            (<[fresh (dom (heap (after (load_data E σ)))) := PyDataFrame df']>
               (heap (after (load_data E σ)))).
Proof.
  intros H. course E σ; try discriminate.
  all: apply bool_decide_eq_true in Hsize.
  all: eexists _, _, _, _; repeat split; try done.
  all: apply (not_elem_of_dom (D := gset nat)), is_fresh.
Qed.

Lemma run_success_witness :
  ∃ df df' g rk,
    value (load_data Demo.env (Demo.start (PyDataFrame Demo.frame) None 15 500)) = Ok df ∧
    passed_on Demo.env (self (Demo.start (PyDataFrame Demo.frame) None 15 500)) df = Ok df' ∧
    load_gmt Demo.env (idx_values (index df'))
      (gene_sets (base (self (Demo.start (PyDataFrame Demo.frame) None 15 500)))) = Ok g ∧
    (min_size (self (Demo.start (PyDataFrame Demo.frame) None 15 500)) ≤
     max_size (self (Demo.start (PyDataFrame Demo.frame) None 15 500)))%Z ∧
    heap (after (load_data Demo.env (Demo.start (PyDataFrame Demo.frame) None 15 500))) !!
      fresh (dom (heap (after (load_data Demo.env
                                 (Demo.start (PyDataFrame Demo.frame) None 15 500))))) = None ∧
    after (run Demo.env (Demo.start (PyDataFrame Demo.frame) None 15 500)) =
      World (with_ranking Demo.env rk
               (with_gmt Demo.env g
                  (with_data Demo.env
                     (fresh (dom (heap (after (load_data Demo.env
                                                 (Demo.start (PyDataFrame Demo.frame) None 15 500))))))
                     (self (Demo.start (PyDataFrame Demo.frame) None 15 500)))))
            (<[fresh (dom (heap (after (load_data Demo.env
                                          (Demo.start (PyDataFrame Demo.frame) None 15 500))))) :=
                 PyDataFrame df']>
               (heap (after (load_data Demo.env
                               (Demo.start (PyDataFrame Demo.frame) None 15 500))))).
Proof.
  apply (run_success Demo.env (Demo.start (PyDataFrame Demo.frame) None 15 500)).
  vm_compute. reflexivity.
Defined.

(** X2: what a [run] that returns has done to the outside, in order: the
    opening log line, the events of loading, the Poisson line in Poisson
    mode, the gene-set filter, two log lines, the output directory when one
    is set, the engine, the result table, and "Done". *)
Theorem run_success_trace (E : Env) (σ : world E) :
  value (run E σ) = Ok tt →
  ∃ df' g,
    heap (after (run E σ)) !! data (self (after (run E σ))) = Some (PyDataFrame df') ∧
    gmt (self (after (run E σ))) = Some g ∧
    events (run E σ) =
      before_assert E (self σ) (events (load_data E σ)) df' g
        ((if truthy (_outdir (base (self σ)))
          then [CallMkdirs (outdir E (base (self σ)))] else []) ++
         [CallGsvaRs (core_args_of E (self σ) df' g); CallToDf; Log INFO "Done"]).
Proof.
  intros H. course E σ; try discriminate.
  all: eexists _, _; split; [by rewrite lookup_insert_eq|]; split; [done|].
  all: unfold before_assert; rewrite ?Hout; cbn [app]; f_equal.
  all: by rewrite <-!app_assoc.
Qed.

Lemma run_success_trace_witness :
  ∃ df' g,
    heap (after (run Demo.env (Demo.start (PyDataFrame Demo.frame) None 15 500))) !!
      data (self (after (run Demo.env (Demo.start (PyDataFrame Demo.frame) None 15 500)))) =
      Some (PyDataFrame df') ∧
    gmt (self (after (run Demo.env (Demo.start (PyDataFrame Demo.frame) None 15 500)))) =
      Some g ∧
    events (run Demo.env (Demo.start (PyDataFrame Demo.frame) None 15 500)) =
      before_assert Demo.env (self (Demo.start (PyDataFrame Demo.frame) None 15 500))
        (events (load_data Demo.env (Demo.start (PyDataFrame Demo.frame) None 15 500))) df' g
        ((if truthy (_outdir (base (self (Demo.start (PyDataFrame Demo.frame) None 15 500))))
          then [CallMkdirs
                  (outdir Demo.env
                     (base (self (Demo.start (PyDataFrame Demo.frame) None 15 500))))]
          else []) ++
         [CallGsvaRs
            (core_args_of Demo.env (self (Demo.start (PyDataFrame Demo.frame) None 15 500))
               df' g);
          CallToDf; Log INFO "Done"]).
Proof.
  apply (run_success_trace Demo.env (Demo.start (PyDataFrame Demo.frame) None 15 500)).
  vm_compute. reflexivity.
Defined.

Lemma mapR_zip_lookup {A B C} (f : A * B → result C) (l : list A) (k : list B) (ys : list C) :
  mapR f (zip l k) = Ok ys →
  length ys = (length l `min` length k)%nat ∧
  ∀ i x y, l !! i = Some x → k !! i = Some y → ∃ z, f (x, y) = Ok z ∧ ys !! i = Some z.
Proof.
  intros H. apply mapR_ok in H. split.
  - rewrite <-(Forall2_length _ _ _ H). apply length_zip_with.
  - intros i x y Hx Hy.
    assert (zip l k !! i = Some (x, y)) as Hz by by apply lookup_zip_Some.
    destruct (Forall2_lookup_l _ _ _ _ _ H Hz) as (z & ? & ?). by exists z.
Qed.

(** X3: after a [run] that returns, [self.ranking] pairs the rankings and
    the indices the engine returned, position by position and as far as the
    shorter of the two lists goes: entry [i] is [rankings[i][indices[i]]]. *)
Theorem ranking_pairs_rankings_with_indices (E : Env) (σ : world E) :
  value (run E σ) = Ok tt →
  ∃ a summaries indices rankings rk,
    engine_calls (events (run E σ)) = [a] ∧
    gsva_rs E a = Ok (summaries, indices, rankings) ∧
    ranking (self (after (run E σ))) = Some rk ∧
    length rk = (length rankings `min` length indices)%nat ∧
    ∀ i rnk ind, rankings !! i = Some rnk → indices !! i = Some ind →
                 ∃ x, getitem E rnk ind = Ok x ∧ rk !! i = Some x.
Proof.
  pose proof (load_data_quiet E σ) as Hq. apply engine_calls_quiet in Hq.
  intros H. course E σ; try discriminate.
  all: apply mapR_zip_lookup in Hrk as [Hlen Hrk].
  all: eexists _, _, _, _, _; split; [|split; [exact Hrs|split; [done|split; [done|exact Hrk]]]].
  all: rewrite !engine_calls_app, (engine_calls_cons _ (_ ++ _)), !engine_calls_app, Hq;
       by destruct (rnaseq (self σ)).
Qed.

Lemma ranking_pairs_rankings_with_indices_witness :
  ∃ a summaries indices rankings rk,
    engine_calls (events (run Demo.env (Demo.start (PyDataFrame Demo.frame) None 15 500))) = [a] ∧
    gsva_rs Demo.env a = Ok (summaries, indices, rankings) ∧
    ranking (self (after (run Demo.env (Demo.start (PyDataFrame Demo.frame) None 15 500)))) =
      Some rk ∧
    length rk = (length rankings `min` length indices)%nat ∧
    ∀ i rnk ind, rankings !! i = Some rnk → indices !! i = Some ind →
                 ∃ x, getitem Demo.env rnk ind = Ok x ∧ rk !! i = Some x.
Proof.
  apply (ranking_pairs_rankings_with_indices Demo.env
           (Demo.start (PyDataFrame Demo.frame) None 15 500)).
  vm_compute. reflexivity.
Defined.

(** X4: [run] logs "Done" exactly when it returns, and then as the last
    thing it does. *)
Theorem done_logged_iff_run_returns (E : Env) (σ : world E) :
  (Log INFO "Done" ∈ events (run E σ) ↔ value (run E σ) = Ok tt) ∧
  (last (events (run E σ)) = Some (Log INFO "Done") ↔ value (run E σ) = Ok tt).
Proof.
  pose proof (load_data_loading_events E σ) as Hl.
  assert (Log INFO "Done" ∉ events (load_data E σ)) as Hn
    by (apply loading_event_not; [done|by intros []]).
  assert (last (events (load_data E σ)) ≠ Some (Log INFO "Done")) as Hlast.
  { intros Hlast. apply Hn. apply last_Some in Hlast as [l' ->].
    apply elem_of_app. right. by left. }
  split.
  - split.
    + intros H. course E σ; try done; absurd_event H.
    + intros H. course E σ; try discriminate;
        apply elem_of_app; right; rewrite !elem_of_cons; auto.
  - split.
    + intros H. course E σ; try done; exfalso; revert H;
        rewrite ?last_app, ?last_cons; cbn [last];
        destruct (rnaseq (self σ)); cbn [last app]; rewrite ?last_app; cbn [last];
        destruct (last (events (load_data E σ))); try done; by intros [= ->].
    + intros H. course E σ; try discriminate; by rewrite last_app.
Qed.

(** X5: a [run] that ends in an exception leaves [self.ranking] as it
    was and has not built a result table unless the engine was called and
    returned. *)
Theorem failed_run_keeps_ranking (E : Env) (σ : world E) (e : exn) :
  value (run E σ) = Raise e →
  ranking (self (after (run E σ))) = ranking (self σ) ∧
  (CallToDf ∈ events (run E σ) →
   ∃ a r, CallGsvaRs a ∈ events (run E σ) ∧ gsva_rs E a = Ok r).
Proof.
  pose proof (load_data_self E σ) as Hs.
  pose proof (load_data_loading_events E σ) as Hl.
  assert (CallToDf ∉ events (load_data E σ)) as Hn
    by (apply loading_event_not; [done|by intros []]).
  intros H. course E σ; try discriminate; (split; [by rewrite ?Hs|]).
  all: try (intros Hin; absurd_event Hin).
  all: intros _; eexists _, _; split; [|exact Hrs];
       apply elem_of_app; right; rewrite !elem_of_cons; auto.
Qed.

Lemma failed_run_keeps_ranking_witness :
  ranking (self (after (run Demo.env (Demo.start (PyDataFrame Demo.frame) None 15 5)))) =
    ranking (self (Demo.start (PyDataFrame Demo.frame) None 15 5)) ∧
  (CallToDf ∈ events (run Demo.env (Demo.start (PyDataFrame Demo.frame) None 15 5)) →
   ∃ a r, CallGsvaRs a ∈ events (run Demo.env (Demo.start (PyDataFrame Demo.frame) None 15 5)) ∧
          gsva_rs Demo.env a = Ok r).
Proof.
  apply (failed_run_keeps_ranking Demo.env (Demo.start (PyDataFrame Demo.frame) None 15 5)
           AssertionError).
  vm_compute. reflexivity.
Defined.

(** X6: [run] raises nothing of its own but the AssertionError of the
    size check: any other exception is the one [load_data] raised, the one
    the clamp of Poisson mode raised, or the one a collaborator raised
    (the gene-set filter, [mkdirs], the engine, [to_df], or the indexing of
    a ranking). *)
Theorem run_exceptions_classified (E : Env) (σ : world E) (e : exn) :
  value (run E σ) = Raise e →
  value (load_data E σ) = Raise e ∨
  (rnaseq (self σ) = true ∧
   ∃ df, value (load_data E σ) = Ok df ∧ clip_lower0 df = Raise e) ∨
  (∃ genes, load_gmt E genes (gene_sets (base (self σ))) = Raise e) ∨
  (e = AssertionError ∧ (max_size (self σ) < min_size (self σ))%Z) ∨
  (truthy (_outdir (base (self σ))) = true ∧ mkdirs E (outdir E (base (self σ))) = Raise e) ∨
  (∃ a, CallGsvaRs a ∈ events (run E σ) ∧
        (gsva_rs E a = Raise e ∨
         ∃ summaries indices rankings,
           gsva_rs E a = Ok (summaries, indices, rankings) ∧
           ((∃ df', to_df E summaries (arg_gene_sets a) df' indices = Raise e) ∨
            (∃ i rnk ind, rankings !! i = Some rnk ∧ indices !! i = Some ind ∧
                          getitem E rnk ind = Raise e)))).
Proof.
  intros H. course E σ; try discriminate; injection H as ->.
  all: lazymatch goal with
       | _ : value _ = Raise _ |- _ => by left
       | _ : passed_on _ _ _ = Raise _ |- _ =>
           right; left; unfold passed_on in Hpass;
           destruct (rnaseq (self σ)); [|discriminate]; split; [done|]; by eexists
       | _ : load_gmt _ _ _ = Raise _ |- _ => do 2 right; left; by eexists
       | _ : bool_decide _ = false |- _ =>
           do 3 right; left; split; [done|]; apply bool_decide_eq_false in Hsize; lia
       | _ : mkdirs _ _ = Raise _ |- _ => do 4 right; left; done
       | _ => do 5 right; eexists;
              (split; [apply elem_of_app; right; rewrite !elem_of_cons; auto|])
       end.
  all: lazymatch goal with
       | _ : gsva_rs _ _ = Raise _ |- _ => by left
       | _ => right; eexists _, _, _; (split; [exact Hrs|])
       end.
  all: lazymatch goal with
       | _ : to_df _ _ _ _ _ = Raise _ |- _ => left; by eexists
       | _ => right
       end.
  all: apply mapR_raise in Hrk as ([rnk ind] & Hin & Hx);
       apply list_elem_of_lookup in Hin as [i Hi]; apply lookup_zip_Some in Hi as [? ?];
       by exists i, rnk, ind.
Qed.

Lemma run_exceptions_classified_witness :
  value (load_data Demo.env (Demo.start (PyDataFrame Demo.frame) None 15 5)) =
    Raise AssertionError ∨
  (rnaseq (self (Demo.start (PyDataFrame Demo.frame) None 15 5)) = true ∧
   ∃ df, value (load_data Demo.env (Demo.start (PyDataFrame Demo.frame) None 15 5)) = Ok df ∧
         clip_lower0 df = Raise AssertionError) ∨
  (∃ genes, load_gmt Demo.env genes
              (gene_sets (base (self (Demo.start (PyDataFrame Demo.frame) None 15 5)))) =
            Raise AssertionError) ∨
  (AssertionError = AssertionError ∧
   (max_size (self (Demo.start (PyDataFrame Demo.frame) None 15 5)) <
    min_size (self (Demo.start (PyDataFrame Demo.frame) None 15 5)))%Z) ∨
  (truthy (_outdir (base (self (Demo.start (PyDataFrame Demo.frame) None 15 5)))) = true ∧
   mkdirs Demo.env (outdir Demo.env (base (self (Demo.start (PyDataFrame Demo.frame) None 15 5)))) =
     Raise AssertionError) ∨
  (∃ a, CallGsvaRs a ∈ events (run Demo.env (Demo.start (PyDataFrame Demo.frame) None 15 5)) ∧
        (gsva_rs Demo.env a = Raise AssertionError ∨
         ∃ summaries indices rankings,
           gsva_rs Demo.env a = Ok (summaries, indices, rankings) ∧
           ((∃ df', to_df Demo.env summaries (arg_gene_sets a) df' indices =
                    Raise AssertionError) ∨
            (∃ i rnk ind, rankings !! i = Some rnk ∧ indices !! i = Some ind ∧
                          getitem Demo.env rnk ind = Raise AssertionError)))).
Proof.
  apply (run_exceptions_classified Demo.env (Demo.start (PyDataFrame Demo.frame) None 15 5)).
  vm_compute. reflexivity.
Defined.

(** X7: [run] makes the output directory exactly when [self._outdir] is
    set (neither [None] nor empty), the matrix was loaded and passed on, the
    gene sets were filtered and the sizes are in order; the directory is
    then [self.outdir]. *)
Theorem outdir_made_iff (E : Env) (σ : world E) (p : string) :
  CallMkdirs p ∈ events (run E σ) ↔
  p = outdir E (base (self σ)) ∧
  truthy (_outdir (base (self σ))) = true ∧
  (min_size (self σ) ≤ max_size (self σ))%Z ∧
  ∃ df df' g,
    value (load_data E σ) = Ok df ∧ passed_on E (self σ) df = Ok df' ∧
    load_gmt E (idx_values (index df')) (gene_sets (base (self σ))) = Ok g.
Proof.
  pose proof (load_data_loading_events E σ) as Hl.
  assert (CallMkdirs p ∉ events (load_data E σ)) as Hn
    by (apply loading_event_not; [done|by intros []]).
  split.
  - intros H. course E σ; try absurd_event H.
    all: apply bool_decide_eq_true in Hsize.
    all: (split; [|split; [done|split; [done|by eexists _, _, _]]]).
    all: repeat match type of H with
                | _ ∈ _ ++ _ => apply elem_of_app in H as [H|H]
                | _ ∈ _ :: _ => apply elem_of_cons in H as [H|H]
                | _ ∈ [] => apply elem_of_nil in H
                | _ ∈ (if ?b then _ else _) => destruct b
                | False => destruct H
                | CallMkdirs _ = CallMkdirs _ => by injection H
                | _ = _ => discriminate H
                end; done.
  - intros (-> & Hout & Hsize & df & df' & g & Hld & Hpass & Hgmt).
    rewrite run_course_spec. unfold run_course. cbv zeta.
    rewrite Hld, Hpass, Hgmt, Hout, bool_decide_eq_true_2 by done.
    destruct (mkdirs E _) as [[]|e]; [|in_events].
    destruct (gsva_rs E _) as [[[su ix] rks]|e]; [|in_events].
    destruct (to_df E _ _ _ _) as [[]|e]; [|in_events].
    destruct (mapR _ _) as [rk|e]; in_events.
Qed.

(** X8: [run] calls the engine at most once, and builds the result table
    only after a call of the engine that returned. *)
Theorem engine_called_at_most_once (E : Env) (σ : world E) :
  (length (engine_calls (events (run E σ))) ≤ 1)%nat ∧
  (∀ a, a ∈ engine_calls (events (run E σ)) ↔ CallGsvaRs a ∈ events (run E σ)) ∧
  (CallToDf ∈ events (run E σ) →
   ∃ a r, engine_calls (events (run E σ)) = [a] ∧ gsva_rs E a = Ok r).
Proof.
  pose proof (load_data_quiet E σ) as Hq. apply engine_calls_quiet in Hq.
  pose proof (load_data_loading_events E σ) as Hl.
  assert (CallToDf ∉ events (load_data E σ)) as Hn
    by (apply loading_event_not; [done|by intros []]).
  split; [|split; [intros a; apply elem_of_engine_calls|]].
  - course E σ.
    all: rewrite ?engine_calls_app, ?(engine_calls_cons _ (_ ++ _)), ?engine_calls_app, ?Hq.
    all: try rewrite (engine_calls_cons _ (events _)), Hq.
    all: try destruct (rnaseq (self σ)); simpl; lia.
  - intros H. course E σ; try absurd_event H.
    all: eexists _, _; (split; [|exact Hrs]).
    all: rewrite ?engine_calls_app, ?(engine_calls_cons _ (_ ++ _)), ?engine_calls_app, ?Hq.
    all: by destruct (rnaseq (self σ)).
Qed.

Lemma values_tolist_length (df : DataFrame) :
  length (values_tolist df) = length (idx_values (index df)).
Proof. unfold values_tolist. by rewrite length_fmap, length_seq. Qed.

(** X9: the engine works on what the object holds afterwards: the gene
    names and the rows it is given are those of the frame [self.data]
    refers to when [run] ends, one row for each gene name, and the gene sets
    it is given are [self.gmt], the result of filtering [self.gene_sets]
    against these gene names. *)
Theorem engine_receives_stored_data (E : Env) (σ : world E) (args : core_args) :
  CallGsvaRs args ∈ events (run E σ) →
  ∃ df',
    heap (after (run E σ)) !! data (self (after (run E σ))) = Some (PyDataFrame df') ∧
    arg_gene_name args = idx_values (index df') ∧
    arg_gene_exp args = values_tolist df' ∧
    length (arg_gene_exp args) = length (arg_gene_name args) ∧
    gmt (self (after (run E σ))) = Some (arg_gene_sets args) ∧
    load_gmt E (arg_gene_name args) (gene_sets (base (self σ))) = Ok (arg_gene_sets args) ∧
    ∃ df, value (load_data E σ) = Ok df ∧ arg_gene_name args = idx_values (index df).
Proof.
  intros H.
  destruct (run_core_call E σ args H) as (df & df' & g & Hl & Hp & Hg & Hsz & ->).
  exists df'. cbn [arg_gene_name arg_gene_exp arg_gene_sets core_args_of].
  pose proof (passed_on_shape E _ _ _ Hp) as (Hix & _).
  assert (heap (after (run E σ)) !! data (self (after (run E σ))) = Some (PyDataFrame df') ∧
          gmt (self (after (run E σ))) = Some g) as [Hd Hm].
  { rewrite run_course_spec. unfold run_course. cbv zeta.
    rewrite Hl, Hp, Hg, bool_decide_eq_true_2 by done.
    destruct (truthy _); [destruct (mkdirs E _) as [[]|?]|]; try course_scoring E.
    all: cbn [after self heap data gmt with_ranking with_gmt with_data].
    all: by rewrite lookup_insert_eq. }
  repeat split; try done.
  - apply values_tolist_length.
  - exists df. by rewrite Hix.
Qed.

Lemma engine_receives_stored_data_witness :
  ∃ df',
    heap (after (run Demo.env Demo.poisson_start)) !!
      data (self (after (run Demo.env Demo.poisson_start))) = Some (PyDataFrame df') ∧
    arg_gene_name Demo.poisson_args = idx_values (index df') ∧
    arg_gene_exp Demo.poisson_args = values_tolist df' ∧
    length (arg_gene_exp Demo.poisson_args) = length (arg_gene_name Demo.poisson_args) ∧
    gmt (self (after (run Demo.env Demo.poisson_start))) =
      Some (arg_gene_sets Demo.poisson_args) ∧
    load_gmt Demo.env (arg_gene_name Demo.poisson_args)
      (gene_sets (base (self Demo.poisson_start))) = Ok (arg_gene_sets Demo.poisson_args) ∧
    ∃ df, value (load_data Demo.env Demo.poisson_start) = Ok df ∧
          arg_gene_name Demo.poisson_args = idx_values (index df).
Proof.
  apply (engine_receives_stored_data Demo.env Demo.poisson_start Demo.poisson_args).
  apply (list_elem_of_lookup_2 _ 8). vm_compute. reflexivity.
Defined.

(** X10: the parameters given to the constructor reach the engine as they
    are: [weight] as [tau], [mx_diff], [abs_rnk], [min_size], [max_size],
    and the thread count the base class stored; and the engine is only
    called with [min_size <= max_size]. *)
Theorem constructor_arguments_reach_engine (E : Env) (data : loc) (gs : gene_sets_arg)
    (outdir kcdf : option string) (weight : Qc) (mx_diff abs_rnk : bool)
    (min_size max_size threads seed : Z) (verbose : bool)
    (h : gmap loc pydata) (args : core_args) :
  CallGsvaRs args ∈
    events (run E (World (init E data gs outdir kcdf weight mx_diff abs_rnk
                            min_size max_size threads seed verbose) h)) →
  arg_tau args = weight ∧
  arg_mx_diff args = mx_diff ∧
  arg_abs_rnk args = abs_rnk ∧
  arg_min_size args = min_size ∧
  arg_max_size args = max_size ∧
  (arg_min_size args ≤ arg_max_size args)%Z ∧
  arg_threads args = _threads (base_init E outdir gs "gsva" threads verbose).
Proof.
  intros H. apply run_core_call in H as (df & df' & g & _ & _ & _ & Hsize & ->).
  by repeat split.
Qed.

Lemma constructor_arguments_reach_engine_witness :
  arg_tau Demo.poisson_args = 1%Qc ∧
  arg_mx_diff Demo.poisson_args = true ∧
  arg_abs_rnk Demo.poisson_args = false ∧
  arg_min_size Demo.poisson_args = 1%Z ∧
  arg_max_size Demo.poisson_args = 500%Z ∧
  (arg_min_size Demo.poisson_args ≤ arg_max_size Demo.poisson_args)%Z ∧
  arg_threads Demo.poisson_args =
    _threads (base_init Demo.env None (GsPath "sets.gmt") "gsva" 1 false).
Proof.
  apply (constructor_arguments_reach_engine Demo.env 0%nat (GsPath "sets.gmt") None
           (Some "Poisson") 1 true false 1 500 1 123 false
           {[ 0%nat := PyDataFrame Demo.frame ]} Demo.poisson_args).
  apply (list_elem_of_lookup_2 _ 8). vm_compute. reflexivity.
Defined.

(** X11: however [run] ends, it leaves the configuration of the object
    alone: the attributes of the base class, [tau], the sizes, the seed, the
    flags and the kernel mode are what they were.  What it assigns is
    [data], [gmt] and [ranking] only. *)
Theorem run_keeps_configuration (E : Env) (σ : world E) :
  base (self (after (run E σ))) = base (self σ) ∧
  tau (self (after (run E σ))) = tau (self σ) ∧
  min_size (self (after (run E σ))) = min_size (self σ) ∧
  max_size (self (after (run E σ))) = max_size (self σ) ∧
  seed (self (after (run E σ))) = seed (self σ) ∧
  mx_diff (self (after (run E σ))) = mx_diff (self σ) ∧
  abs_rnk (self (after (run E σ))) = abs_rnk (self σ) ∧
  permutation_num (self (after (run E σ))) = permutation_num (self σ) ∧
  _noplot (self (after (run E σ))) = _noplot (self σ) ∧
  kernel (self (after (run E σ))) = kernel (self σ) ∧
  rnaseq (self (after (run E σ))) = rnaseq (self σ) ∧
  permutation_type (self (after (run E σ))) = permutation_type (self σ).
Proof.
  pose proof (load_data_self E σ) as Hs.
  course E σ; rewrite ?Hs; repeat split; reflexivity.
Qed.

(** X12: [run] rebinds [self.data] as soon as loading and the clamp of
    Poisson mode have succeeded, whatever happens afterwards: [self.data]
    is then a new object holding the frame passed on.  When one of the two
    fails, [run] raises and the object is as it was. *)
Theorem data_rebound_once_loaded (E : Env) (σ : world E) :
  (∀ df df', value (load_data E σ) = Ok df → passed_on E (self σ) df = Ok df' →
     heap (after (load_data E σ)) !! data (self (after (run E σ))) = None ∧
     heap (after (run E σ)) !! data (self (after (run E σ))) = Some (PyDataFrame df')) ∧
  ((∀ df df', value (load_data E σ) = Ok df → passed_on E (self σ) df ≠ Ok df') →
     self (after (run E σ)) = self σ ∧ ∃ e, value (run E σ) = Raise e).
Proof.
  pose proof (load_data_self E σ) as Hs.
  split.
  - intros df df' Hl Hp. rewrite run_course_spec. unfold run_course. cbv zeta.
    rewrite Hl, Hp. course_tail E σ.
    all: split; [apply (not_elem_of_dom (D := gset nat)), is_fresh|by rewrite lookup_insert_eq].
  - intros Hno. course E σ.
    all: try (by destruct (Hno _ _ eq_refl Hpass)).
    all: split; [by rewrite ?Hs|by eexists].
Qed.

(** ** Properties of [load_data] *)

(** X13: a DataFrame whose row index is not of object dtype and which
    has no column makes [load_data] raise IndexError (there is no first
    column to take the gene names from), after the debug line and without
    changing anything. *)
Theorem dataframe_without_columns (E : Env) (σ : world E) (d : DataFrame) :
  heap σ !! data (self σ) = Some (PyDataFrame d) →
  idx_dtype (index d) ≠ Object →
  cols d = [] →
  load_data E σ =
    Outcome (Raise IndexError) σ [Log DEBUG "Input data is a DataFrame with gene names"].
Proof.
  intros H Hd Hc. unfold load_data. rewrite bind_outcome.
  rewrite (read_input_dataframe E σ d H). cbn [value after events].
  unfold prepare_dataframe. rewrite bool_decide_eq_true_2 by done.
  unfold index_getitem0, columns. cbn [idx_values]. by rewrite Hc.
Qed.

Lemma dataframe_without_columns_witness :
  load_data Demo.env (Demo.start (PyDataFrame Inputs.no_columns) None 15 500) =
    Outcome (Raise IndexError) (Demo.start (PyDataFrame Inputs.no_columns) None 15 500)
      [Log DEBUG "Input data is a DataFrame with gene names"].
Proof.
  apply (dataframe_without_columns Demo.env
           (Demo.start (PyDataFrame Inputs.no_columns) None 15 500) Inputs.no_columns).
  - reflexivity.
  - discriminate.
  - reflexivity.
Defined.

(** ** Helper lemmas for [load_data] *)

Lemma existsb_isna_none (vs : list scalar) :
  NA ∉ vs → existsb id (isna <$> vs) = false.
Proof.
  induction vs as [|v vs IH]; [done|]. intros H.
  apply not_elem_of_cons in H as [Hv Hvs]. rewrite fmap_cons. simpl.
  rewrite (IH Hvs). by destruct v.
Qed.

Lemma isnull_some (df : DataFrame) :
  (0 < sum (any (isnull df)))%nat → ¬ no_na df.
Proof.
  intros H Hna. unfold sum, any, isnull, no_na in *.
  induction Hna as [|lc cs Hlc _ IH]; [simpl in H; lia|].
  rewrite !fmap_cons, filter_cons in H. rewrite (existsb_isna_none _ Hlc) in H.
  destruct (decide (Is_true false)) as [[]|]. by apply IH.
Qed.

Lemma fill_and_average_trace (E : Env) (raw : DataFrame) (σ : world E) :
  events (fill_and_average E raw σ) =
    (if bool_decide (no_na raw) then []
     else [Log WARNING "Input data contains NA, filled NA with 0"]) ++
    (if bool_decide (NoDup (idx_values (index raw))) then []
     else [Log WARNING "Found duplicated gene names, values averaged by gene names!"]).
Proof.
  unfold fill_and_average. unfold_monad. simpl.
  destruct (bool_decide (0 < sum (any (isnull raw)))%nat) eqn:Hna; simpl.
  - apply bool_decide_eq_true in Hna. apply isnull_some in Hna.
    rewrite (bool_decide_eq_false_2 (no_na raw)) by done.
    destruct (bool_decide (0 < sum (duplicated (index raw)))%nat) eqn:Hd; simpl.
    + apply bool_decide_eq_true in Hd. apply duplicated_some in Hd.
      rewrite bool_decide_eq_false_2 by done.
      first [done | by destruct (groupby_level0_mean _)].
    + apply bool_decide_eq_false in Hd. apply duplicated_none in Hd.
      by rewrite bool_decide_eq_true_2.
  - apply bool_decide_eq_false in Hna. apply isnull_none in Hna.
    rewrite (bool_decide_eq_true_2 (no_na raw)) by done.
    destruct (bool_decide (0 < sum (duplicated (index raw)))%nat) eqn:Hd; simpl.
    + apply bool_decide_eq_true in Hd. apply duplicated_some in Hd.
      rewrite bool_decide_eq_false_2 by done.
      first [done | by destruct (groupby_level0_mean _)].
    + apply bool_decide_eq_false in Hd. apply duplicated_none in Hd.
      by rewrite bool_decide_eq_true_2.
Qed.

Lemma fill_and_average_outcome (E : Env) (raw : DataFrame) (σ : world E) :
  fill_and_average E raw σ =
    Outcome (cleaned raw) σ
      ((if bool_decide (no_na raw) then []
        else [Log WARNING "Input data contains NA, filled NA with 0"]) ++
       (if bool_decide (NoDup (idx_values (index raw))) then []
        else [Log WARNING "Found duplicated gene names, values averaged by gene names!"])).
Proof.
  pose proof (fill_and_average_value E raw σ) as Hv.
  pose proof (fill_and_average_after E raw σ) as Ha.
  pose proof (fill_and_average_trace E raw σ) as He.
  destruct (fill_and_average E raw σ) as [v a evs]. cbn [value after events] in *.
  unfold cleaned. by rewrite Hv, Ha, He.
Qed.

Lemma load_data_outcome (E : Env) (σ : world E) :
  load_data E σ =
    match value (read_input E σ) with
    | Ok raw =>
        Outcome (cleaned raw) (after (read_input E σ))
          (events (read_input E σ) ++
           (if bool_decide (no_na raw) then []
            else [Log WARNING "Input data contains NA, filled NA with 0"]) ++
           (if bool_decide (NoDup (idx_values (index raw))) then []
            else [Log WARNING
                    "Found duplicated gene names, values averaged by gene names!"]))
    | Raise e => Outcome (Raise e) (after (read_input E σ)) (events (read_input E σ))
    end.
Proof.
  unfold load_data. rewrite bind_outcome.
  destruct (value (read_input E σ)) as [raw|e]; [|done].
  by rewrite fill_and_average_outcome.
Qed.

Lemma read_input_file (E : Env) (σ : world E) (path : string) :
  heap σ !! data (self σ) = Some (PyStr path) → isfile E path = true →
  read_input E σ =
    Outcome (prepare_file E path) σ
      [CallReadCsv path (if endswith path "gct" then 1%nat else 0%nat)
         (if endswith path "gct" then TAB else if endswith path "csv" then "," else TAB)].
Proof.
  intros H Hf. unfold read_input, prepare_file. unfold_monad. simpl. rewrite H. simpl.
  rewrite Hf. destruct (endswith path "gct"); simpl.
  - by destruct (read_csv E path 1 TAB).
  - by destruct (read_csv E path 0 _).
Qed.

Lemma filter_label_absent (key : scalar) (rest : list (scalar * Column)) :
  key ∉ rest.*1 →
  filter (λ lc : scalar * Column, lc.1 = key) rest = [] ∧
  filter (λ lc : scalar * Column, lc.1 ≠ key) rest = rest.
Proof.
  induction rest as [|[k c] rest IH]; [done|]. rewrite fmap_cons. intros H.
  apply not_elem_of_cons in H as [Hk Hrest]. destruct (IH Hrest) as [IH1 IH2].
  rewrite !filter_cons. simpl in *.
  destruct (decide (k = key)) as [->|]; [done|].
  destruct (decide (k ≠ key)); [|done]. by rewrite IH1, IH2.
Qed.

Lemma cleaned_index (raw df : DataFrame) :
  cleaned raw = Ok df →
  idx_dtype (index df) = idx_dtype (index raw) ∧
  (NoDup (idx_values (index raw)) → index df = index raw) ∧
  (¬ NoDup (idx_values (index raw)) →
   idx_values (index df) = group_keys (idx_values (index raw))).
Proof.
  unfold cleaned. case_bool_decide as Hn.
  - intros [= <-]. by repeat split.
  - unfold groupby_level0_mean. destruct (mapR _ (cols (fillna0 raw))); [|discriminate].
    intros [= <-]. by repeat split.
Qed.

(** X14: for a DataFrame whose row index is not of object dtype, the gene
    names are taken from the first column, provided no other column has its
    label: that column becomes the row index, and every gene name of the
    matrix [load_data] returns is a cell of it; when its cells are distinct
    they are the gene names, in their order. *)
Theorem first_column_becomes_index (E : Env) (σ : world E) (d : DataFrame)
    (key : scalar) (c : Column) (rest : list (scalar * Column)) :
  heap σ !! data (self σ) = Some (PyDataFrame d) →
  idx_dtype (index d) ≠ Object →
  cols d = (key, c) :: rest →
  (key ∉ rest.*1) →
  ∃ raw,
    value (read_input E σ) = Ok raw ∧
    index raw = MkIndex (col_dtype c) (col_values c) ∧
    (length (cols raw) ≤ length rest)%nat ∧
    ∀ df, value (load_data E σ) = Ok df →
          idx_dtype (index df) = col_dtype c ∧
          (∀ k, k ∈ idx_values (index df) → k ∈ col_values c) ∧
          (NoDup (col_values c) → idx_values (index df) = col_values c).
Proof.
  intros H Hd Hc Hk. rewrite load_data_value, (read_input_dataframe E σ d H).
  cbn [value]. unfold prepare_dataframe. rewrite bool_decide_eq_true_2 by done.
  unfold index_getitem0, columns, set_index. rewrite Hc. cbn [idx_values fmap list_fmap fst].
  destruct (filter_label_absent key rest Hk) as [Hf1 Hf2].
  rewrite !filter_cons. cbn [fst]. destruct (decide (key = key)) as [_|]; [|done].
  destruct (decide (key ≠ key)) as [|_]; [done|]. rewrite Hf1, Hf2.
  cbv beta iota.
  set (d1 := MkDataFrame (MkIndex (col_dtype c) (col_values c)) (columns_dtype d) rest).
  set (raw := select_dtypes_number _).
  assert (index raw = MkIndex (col_dtype c) (col_values c)) as Hix
    by (subst raw; by destruct (bool_decide _)).
  exists raw. split; [done|]. split; [done|]. split.
  { subst raw. unfold select_dtypes_number. cbn [cols]. etrans; [apply length_filter|].
    destruct (bool_decide _); [|done]. unfold set_columns. cbn [cols].
    rewrite length_zip_with, !length_fmap. subst d1. cbn [cols]. lia. }
  intros df Hcl. apply cleaned_index in Hcl as (Hdt & Hnd & Hdup).
  rewrite Hix in *. cbn [idx_values idx_dtype] in *.
  split; [done|]. split.
  - intros k Hin. destruct (decide (NoDup (col_values c))) as [Hn|Hn].
    + by rewrite (Hnd Hn) in Hin.
    + rewrite (Hdup Hn) in Hin. by apply elem_of_group_keys in Hin as [? _].
  - intros Hn. by rewrite (Hnd Hn).
Qed.

Lemma first_column_becomes_index_witness :
  ∃ raw,
    value (read_input Demo.env (Demo.start (PyDataFrame Inputs.numbered) None 15 500)) = Ok raw ∧
    index raw = MkIndex (col_dtype (MkColumn Object [Str "TP53"; Str "EGFR"]))
                  (col_values (MkColumn Object [Str "TP53"; Str "EGFR"])) ∧
    (length (cols raw) ≤ length [(Str "s1", MkColumn Float64 [Demo.Int 1; Demo.Int 2])])%nat ∧
    ∀ df, value (load_data Demo.env (Demo.start (PyDataFrame Inputs.numbered) None 15 500)) =
            Ok df →
          idx_dtype (index df) = col_dtype (MkColumn Object [Str "TP53"; Str "EGFR"]) ∧
          (∀ k, k ∈ idx_values (index df) →
                k ∈ col_values (MkColumn Object [Str "TP53"; Str "EGFR"])) ∧
          (NoDup (col_values (MkColumn Object [Str "TP53"; Str "EGFR"])) →
           idx_values (index df) = col_values (MkColumn Object [Str "TP53"; Str "EGFR"])).
Proof.
  apply (first_column_becomes_index Demo.env
           (Demo.start (PyDataFrame Inputs.numbered) None 15 500) Inputs.numbered
           (Str "gene") (MkColumn Object [Str "TP53"; Str "EGFR"])
           [(Str "s1", MkColumn Float64 [Demo.Int 1; Demo.Int 2])]).
  - reflexivity.
  - discriminate.
  - reflexivity.
  - intros Hin. apply elem_of_cons in Hin as [[=]|Hin]. by apply elem_of_nil in Hin.
Defined.

(** X15: for the path of an existing file, [load_data] calls the parser
    exactly once, as its first action: with [skiprows=1] and a tab for a
    path ending in "gct", with no skipped row and a comma for a path ending
    in "csv", and with no skipped row and a tab otherwise.  What follows are
    warnings only; an exception of the parser is passed on as it is; and
    nothing is changed. *)
Theorem file_parsed_once (E : Env) (σ : world E) (path : string) :
  heap σ !! data (self σ) = Some (PyStr path) →
  isfile E path = true →
  (∃ warnings,
     events (load_data E σ) =
       CallReadCsv path (if endswith path "gct" then 1%nat else 0%nat)
         (if endswith path "gct" then TAB else if endswith path "csv" then "," else TAB)
       :: warnings ∧
     Forall (λ ev, ∃ msg, ev = Log WARNING msg) warnings) ∧
  (∀ e, read_csv E path (if endswith path "gct" then 1%nat else 0%nat)
          (if endswith path "gct" then TAB else if endswith path "csv" then "," else TAB)
        = Raise e →
        load_data E σ =
          Outcome (Raise e) σ
            [CallReadCsv path (if endswith path "gct" then 1%nat else 0%nat)
               (if endswith path "gct" then TAB
                else if endswith path "csv" then "," else TAB)]) ∧
  after (load_data E σ) = σ.
Proof.
  intros H Hf. rewrite load_data_outcome, (read_input_file E σ path H Hf).
  cbn [value after events]. split; [|split].
  - destruct (prepare_file E path) as [raw|e]; cbn [events app]; eexists; (split; [done|]).
    + apply Forall_app. split; case_bool_decide; repeat constructor; by eexists.
    + constructor.
  - intros e He. unfold prepare_file.
    destruct (endswith path "gct"); by rewrite He.
  - by destruct (prepare_file E path).
Qed.

Lemma file_parsed_once_witness :
  (∃ warnings,
     events (load_data Demo.env (Demo.start (PyStr "expr.gct") None 15 500)) =
       CallReadCsv "expr.gct" (if endswith "expr.gct" "gct" then 1%nat else 0%nat)
         (if endswith "expr.gct" "gct" then TAB
          else if endswith "expr.gct" "csv" then "," else TAB)
       :: warnings ∧
     Forall (λ ev, ∃ msg, ev = Log WARNING msg) warnings) ∧
  (∀ e, read_csv Demo.env "expr.gct" (if endswith "expr.gct" "gct" then 1%nat else 0%nat)
          (if endswith "expr.gct" "gct" then TAB
           else if endswith "expr.gct" "csv" then "," else TAB)
        = Raise e →
        load_data Demo.env (Demo.start (PyStr "expr.gct") None 15 500) =
          Outcome (Raise e) (Demo.start (PyStr "expr.gct") None 15 500)
            [CallReadCsv "expr.gct" (if endswith "expr.gct" "gct" then 1%nat else 0%nat)
               (if endswith "expr.gct" "gct" then TAB
                else if endswith "expr.gct" "csv" then "," else TAB)]) ∧
  after (load_data Demo.env (Demo.start (PyStr "expr.gct") None 15 500)) =
    Demo.start (PyStr "expr.gct") None 15 500.
Proof.
  apply (file_parsed_once Demo.env (Demo.start (PyStr "expr.gct") None 15 500) "expr.gct").
  - reflexivity.
  - reflexivity.
Defined.

Lemma read_input_no_warning (E : Env) (σ : world E) (msg : string) :
  Log WARNING msg ∉ events (read_input E σ).
Proof.
  destruct (read_input_cases E σ) as [[d H]|[[ser H]|[[p H]|[_ H]]]].
  - rewrite (read_input_dataframe _ _ _ H). cbn [events]. intros Hin.
    apply elem_of_cons in Hin as [Heq|Hin]; [discriminate Heq|by apply elem_of_nil in Hin].
  - rewrite (read_input_series _ _ _ H).
    destruct (renamed E (name ser)); cbn [events]; intros Hin;
      (apply elem_of_cons in Hin as [Heq|Hin]; [discriminate Heq|by apply elem_of_nil in Hin]).
  - apply read_input_path in H as (_ & _ & _ & H). intros Hin.
    by destruct (H _ Hin) as (? & ? & ? & ?).
  - rewrite H. apply not_elem_of_nil.
Qed.

Lemma read_input_repeatable (E : Env) (σ : world E) :
  (∀ ser, heap σ !! data (self σ) = Some (PySeries ser) → name ser ≠ NameNone) →
  read_input E (after (read_input E σ)) = read_input E σ.
Proof.
  intros Hno. destruct (read_input_cases E σ) as [[d H]|[[ser H]|[[p H]|[_ H]]]].
  - rewrite (read_input_dataframe _ _ _ H). cbn [after].
    by rewrite (read_input_dataframe _ _ _ H).
  - specialize (Hno ser H). rewrite (read_input_series E σ ser H).
    destruct (name ser) as [|s|z|d v] eqn:Hn; [done| | |];
      cbn [renamed after]; try by rewrite (read_input_series E σ ser H), Hn.
    set (n := if bool_decide (d ≠ Object) then NameNp Unicode (Str (str_of E v))
              else NameNp d v).
    assert (renamed E n = Ok n) as Hren.
    { subst n. destruct (bool_decide (d ≠ Object)) eqn:Hd; cbn [renamed]; [|by rewrite Hd].
      by rewrite bool_decide_eq_true_2. }
    rewrite (read_input_series E _ (with_name n ser)); [|by cbn; rewrite lookup_insert_eq].
    cbn [name with_name self heap]. rewrite Hren. unfold with_name at 1 3. cbn.
    by rewrite insert_insert_eq.
  - destruct (read_input_path E σ p H) as (_ & Ha & _). by rewrite Ha.
  - rewrite H. cbn [after]. by rewrite H.
Qed.

(** X16: a Series without a name can be loaded once: [load_data] writes
    the Python string "sample1" into its [name], so that a second
    [load_data], and hence a [run] after a [load_data], raises
    AttributeError. *)
Theorem unnamed_series_loads_once (E : Env) (σ : world E) (ser : Series) :
  heap σ !! data (self σ) = Some (PySeries ser) →
  name ser = NameNone →
  heap (after (load_data E σ)) !! data (self σ) =
    Some (PySeries (with_name (NamePyStr "sample1") ser)) ∧
  value (load_data E (after (load_data E σ))) = Raise AttributeError ∧
  value (run E (after (load_data E σ))) = Raise AttributeError.
Proof.
  intros H Hn.
  assert (after (load_data E σ) =
          World (self σ)
            (<[data (self σ) := PySeries (with_name (NamePyStr "sample1") ser)]> (heap σ)))
    as Ha.
  { rewrite load_data_after, (read_input_series E σ ser H), Hn. done. }
  assert (value (load_data E (after (load_data E σ))) = Raise AttributeError) as Hv.
  { rewrite Ha, load_data_value.
    rewrite (read_input_series E _ (with_name (NamePyStr "sample1") ser));
      [done|by cbn; rewrite lookup_insert_eq]. }
  split; [by rewrite Ha; cbn; rewrite lookup_insert_eq|]. split; [done|].
  rewrite run_course_spec. unfold run_course. cbv zeta. by rewrite Hv.
Qed.

Lemma unnamed_series_loads_once_witness :
  heap (after (load_data Demo.env (Demo.start (PySeries (Demo.series NameNone)) None 15 500))) !!
    data (self (Demo.start (PySeries (Demo.series NameNone)) None 15 500)) =
    Some (PySeries (with_name (NamePyStr "sample1") (Demo.series NameNone))) ∧
  value (load_data Demo.env
           (after (load_data Demo.env
                     (Demo.start (PySeries (Demo.series NameNone)) None 15 500)))) =
    Raise AttributeError ∧
  value (run Demo.env
           (after (load_data Demo.env
                     (Demo.start (PySeries (Demo.series NameNone)) None 15 500)))) =
    Raise AttributeError.
Proof.
  apply (unnamed_series_loads_once Demo.env
           (Demo.start (PySeries (Demo.series NameNone)) None 15 500) (Demo.series NameNone)).
  - reflexivity.
  - reflexivity.
Defined.

(** X17: but for a Series without a name, [load_data] can be repeated:
    called again in the state it left, it returns the same result, logs the
    same lines and leaves that state as it is. *)
Theorem load_data_repeatable (E : Env) (σ : world E) :
  (∀ ser, heap σ !! data (self σ) = Some (PySeries ser) → name ser ≠ NameNone) →
  load_data E (after (load_data E σ)) = load_data E σ ∧
  after (load_data E (after (load_data E σ))) = after (load_data E σ).
Proof.
  intros Hno.
  assert (load_data E (after (load_data E σ)) = load_data E σ) as Heq.
  { rewrite load_data_after.
    rewrite (load_data_outcome E (after (read_input E σ))), (load_data_outcome E σ).
    by rewrite (read_input_repeatable E σ Hno). }
  split; [done|]. by rewrite Heq.
Qed.

Lemma load_data_repeatable_witness :
  load_data Demo.env
    (after (load_data Demo.env
              (Demo.start (PySeries (Demo.series (NameNp Int64 (Demo.Int 7)))) None 15 500))) =
  load_data Demo.env
    (Demo.start (PySeries (Demo.series (NameNp Int64 (Demo.Int 7)))) None 15 500) ∧
  after (load_data Demo.env
           (after (load_data Demo.env
                     (Demo.start (PySeries (Demo.series (NameNp Int64 (Demo.Int 7))))
                        None 15 500)))) =
  after (load_data Demo.env
           (Demo.start (PySeries (Demo.series (NameNp Int64 (Demo.Int 7)))) None 15 500)).
Proof.
  apply (load_data_repeatable Demo.env
           (Demo.start (PySeries (Demo.series (NameNp Int64 (Demo.Int 7)))) None 15 500)).
  intros ser H.
  assert (Some (PySeries (Demo.series (NameNp Int64 (Demo.Int 7)))) = Some (PySeries ser))
    as Heq by exact H.
  injection Heq as <-. discriminate.
Defined.

Lemma filter_all {A} (P : A → Prop) `{!∀ x, Decision (P x)} (l : list A) :
  Forall P l → filter P l = l.
Proof.
  induction 1 as [|x l Hx _ IH]; [done|].
  rewrite filter_cons. destruct (decide (P x)); [|done]. by rewrite IH.
Qed.

Lemma select_dtypes_number_all (d : DataFrame) :
  Forall numeric (cols d) → select_dtypes_number d = d.
Proof.
  intros H. destruct d as [ix cd cs]. unfold select_dtypes_number. cbn [index columns_dtype cols] in *.
  f_equal. by apply (filter_all numeric).
Qed.

(** X18: a DataFrame that needs no cleaning is returned as it is: with a
    row index and a column index of object dtype, numeric columns only, no
    missing value and no repeated gene name, [load_data] returns the frame
    itself, logs the debug line only and changes nothing. *)
Theorem clean_frame_is_returned (E : Env) (σ : world E) (d : DataFrame) :
  heap σ !! data (self σ) = Some (PyDataFrame d) →
  idx_dtype (index d) = Object →
  columns_dtype d = Object →
  Forall numeric (cols d) →
  no_na d →
  NoDup (idx_values (index d)) →
  load_data E σ = Outcome (Ok d) σ [Log DEBUG "Input data is a DataFrame with gene names"].
Proof.
  intros H Hi Hc Hn Hna Hnd. rewrite load_data_outcome, (read_input_dataframe E σ d H).
  cbn [value after events]. unfold prepare_dataframe.
  rewrite (bool_decide_eq_false_2 (idx_dtype (index d) ≠ Object)) by (by intros []).
  rewrite (bool_decide_eq_false_2 (columns_dtype d ≠ Object)) by (by intros []).
  rewrite (select_dtypes_number_all d Hn). unfold cleaned.
  rewrite !bool_decide_eq_true_2 by done. by rewrite (fillna0_id d Hna).
Qed.

Lemma clean_frame_is_returned_witness :
  load_data Demo.env (Demo.start (PyDataFrame Inputs.clean) None 15 500) =
    Outcome (Ok Inputs.clean) (Demo.start (PyDataFrame Inputs.clean) None 15 500)
      [Log DEBUG "Input data is a DataFrame with gene names"].
Proof.
  apply (clean_frame_is_returned Demo.env (Demo.start (PyDataFrame Inputs.clean) None 15 500)).
  - reflexivity.
  - reflexivity.
  - reflexivity.
  - by repeat constructor.
  - repeat constructor; intros Hin;
      repeat (apply elem_of_cons in Hin as [Heq|Hin]; [discriminate Heq|]);
      by apply elem_of_nil in Hin.
  - apply (bool_decide_unpack _). vm_compute. exact I.
Defined.

Lemma scalar_le_total : Total scalar_le.
Proof.
  intros a b. unfold scalar_le.
  destruct a as [|x|s], b as [|y|t]; simpl; auto.
  - destruct (Qclt_le_dec x y) as [Hlt|Hle].
    + left. apply bool_decide_pack. by apply Qclt_le_weak.
    + right. by apply bool_decide_pack.
  - destruct (String.leb_total s t) as [-> | ->]; auto.
Qed.

(** X19: the order of the genes.  When the gene names of the input are
    distinct, the matrix [load_data] returns has them in the order of the
    input; when some name is repeated, the rows of the returned matrix are
    in ascending order of the gene names (numbers before strings), whatever
    the order of the input. *)
Theorem averaging_sorts_the_genes (E : Env) (σ : world E) (raw df : DataFrame) :
  value (read_input E σ) = Ok raw →
  value (load_data E σ) = Ok df →
  (NoDup (idx_values (index raw)) → idx_values (index df) = idx_values (index raw)) ∧
  (¬ NoDup (idx_values (index raw)) →
   Sorted scalar_le (idx_values (index df)) ∧
   ∀ k, k ∈ idx_values (index df) ↔ k ∈ idx_values (index raw) ∧ k ≠ NA).
Proof.
  intros Hraw Hv. rewrite load_data_value, Hraw in Hv.
  apply cleaned_index in Hv as (_ & Hnd & Hdup). split.
  - intros Hn. by rewrite (Hnd Hn).
  - intros Hn. rewrite (Hdup Hn). split.
    + unfold group_keys. apply (@Sorted_merge_sort _ scalar_le _ scalar_le_total).
    + intros k. apply elem_of_group_keys.
Qed.

Lemma averaging_sorts_the_genes_witness :
  (NoDup (idx_values (index (frame_of (value (read_input Demo.env
             (Demo.start (PyDataFrame Demo.frame) None 15 500)))))) →
   idx_values (index (frame_of (value (load_data Demo.env
             (Demo.start (PyDataFrame Demo.frame) None 15 500))))) =
   idx_values (index (frame_of (value (read_input Demo.env
             (Demo.start (PyDataFrame Demo.frame) None 15 500)))))) ∧
  (¬ NoDup (idx_values (index (frame_of (value (read_input Demo.env
               (Demo.start (PyDataFrame Demo.frame) None 15 500)))))) →
   Sorted scalar_le
     (idx_values (index (frame_of (value (load_data Demo.env
                (Demo.start (PyDataFrame Demo.frame) None 15 500)))))) ∧
   ∀ k, k ∈ idx_values (index (frame_of (value (load_data Demo.env
                (Demo.start (PyDataFrame Demo.frame) None 15 500))))) ↔
        k ∈ idx_values (index (frame_of (value (read_input Demo.env
                (Demo.start (PyDataFrame Demo.frame) None 15 500))))) ∧ k ≠ NA).
Proof.
  apply (averaging_sorts_the_genes Demo.env (Demo.start (PyDataFrame Demo.frame) None 15 500)).
  - reflexivity.
  - vm_compute. reflexivity.
Defined.

(** X20: the two warnings of [load_data] say what was done to the frame
    built from the input: "filled NA with 0" is logged exactly when that
    frame has a missing value, "values averaged by gene names" exactly when
    it has a repeated gene name. *)
Theorem warnings_tell_what_was_cleaned (E : Env) (σ : world E) (raw : DataFrame) :
  value (read_input E σ) = Ok raw →
  (Log WARNING "Input data contains NA, filled NA with 0" ∈ events (load_data E σ) ↔
   ¬ no_na raw) ∧
  (Log WARNING "Found duplicated gene names, values averaged by gene names!"
     ∈ events (load_data E σ) ↔
   ¬ NoDup (idx_values (index raw))).
Proof.
  intros Hraw. rewrite load_data_outcome, Hraw. cbn [events].
  pose proof (read_input_no_warning E σ) as Hri.
  split; rewrite !elem_of_app; (split; [intros [Hin|[Hin|Hin]]|intros Hn]).
  - by destruct (Hri _ Hin).
  - case_bool_decide; [by apply elem_of_nil in Hin|done].
  - case_bool_decide; [by apply elem_of_nil in Hin|].
    apply elem_of_cons in Hin as [Heq|Hin]; [discriminate Heq|by apply elem_of_nil in Hin].
  - right; left. rewrite bool_decide_eq_false_2 by done. by left.
  - by destruct (Hri _ Hin).
  - case_bool_decide; [by apply elem_of_nil in Hin|].
    apply elem_of_cons in Hin as [Heq|Hin]; [discriminate Heq|by apply elem_of_nil in Hin].
  - case_bool_decide; [by apply elem_of_nil in Hin|done].
  - right; right. rewrite bool_decide_eq_false_2 by done. by left.
Qed.

Lemma warnings_tell_what_was_cleaned_witness :
  (Log WARNING "Input data contains NA, filled NA with 0"
     ∈ events (load_data Demo.env (Demo.start (PyDataFrame Demo.frame) None 15 500)) ↔
   ¬ no_na (frame_of (value (read_input Demo.env
                               (Demo.start (PyDataFrame Demo.frame) None 15 500))))) ∧
  (Log WARNING "Found duplicated gene names, values averaged by gene names!"
     ∈ events (load_data Demo.env (Demo.start (PyDataFrame Demo.frame) None 15 500)) ↔
   ¬ NoDup (idx_values (index (frame_of (value (read_input Demo.env
                               (Demo.start (PyDataFrame Demo.frame) None 15 500))))))).
Proof.
  apply (warnings_tell_what_was_cleaned Demo.env
           (Demo.start (PyDataFrame Demo.frame) None 15 500)).
  reflexivity.
Defined.



Lemma mapR_total {A B} (f : A → result B) (P : B → Prop) (l : list A) :
  Forall (λ x, ∃ y, f x = Ok y ∧ P y) l → ∃ ys, mapR f l = Ok ys ∧ Forall P ys.
Proof.
  induction 1 as [|x l (y & Hy & Py) _ (ys & Hys & Pys)]; [by exists []|].
  exists (y :: ys). simpl. rewrite Hy, Hys. split; [done|by constructor].
Qed.

Lemma numbers_total (l : list scalar) :
  Forall (λ v, ¬ is_str v) l → ∃ qs, numbers l = Ok qs.
Proof.
  induction 1 as [|v l Hv _ [qs IH]]; [by exists []|].
  destruct v as [|q|s]; simpl.
  - by exists qs.
  - rewrite IH. by eexists.
  - by destruct Hv.
Qed.

Lemma mean_total (l : list scalar) :
  Forall (λ v, ¬ is_str v) l → ∃ v, mean l = Ok v ∧ ¬ is_str v.
Proof.
  intros H. destruct (numbers_total l H) as [qs Hqs]. unfold mean. rewrite Hqs.
  destruct qs; eexists; (split; [done|]); by intros [].
Qed.

Lemma fillna0_numbers_only (df : DataFrame) :
  Forall numbers_only (cols df) → Forall numbers_only (cols (fillna0 df)).
Proof.
  unfold fillna0, numbers_only. cbn [cols]. intros H. apply Forall_fmap.
  eapply Forall_impl; [exact H|]. intros lc Hlc. cbn. apply Forall_fmap.
  eapply Forall_impl; [exact Hlc|]. by intros [].
Qed.

Lemma groupby_level0_mean_total (df : DataFrame) :
  Forall numbers_only (cols df) →
  ∃ df', groupby_level0_mean df = Ok df' ∧ Forall numbers_only (cols df').
Proof.
  intros H. unfold groupby_level0_mean.
  destruct (mapR_total
              (λ lc : scalar * Column,
                 match mapR (λ k, mean (group_values k (idx_values (index df)) (col_values lc.2)))
                         (group_keys (idx_values (index df))) with
                 | Ok vs => Ok (lc.1, MkColumn Float64 vs)
                 | Raise e => Raise e
                 end)
              numbers_only (cols df)) as (cs & Hcs & Pcs).
  { eapply Forall_impl; [exact H|]. intros lc Hlc. cbn beta.
    destruct (mapR_total
                (λ k, mean (group_values k (idx_values (index df)) (col_values lc.2)))
                (λ v, ¬ is_str v) (group_keys (idx_values (index df)))) as (vs & Hvs & Pvs).
    { apply Forall_forall. intros k _. apply mean_total.
      apply Forall_forall. intros v Hv. apply group_values_elem in Hv.
      unfold numbers_only in Hlc. rewrite Forall_forall in Hlc. by apply Hlc. }
    rewrite Hvs. by eexists. }
  rewrite Hcs. by eexists.
Qed.

Lemma cleaned_total (raw : DataFrame) :
  Forall numbers_only (cols raw) →
  ∃ df, cleaned raw = Ok df ∧ Forall numbers_only (cols df).
Proof.
  intros H. apply fillna0_numbers_only in H. unfold cleaned. case_bool_decide.
  - by eexists.
  - by apply groupby_level0_mean_total.
Qed.

Lemma clip_lower0_total (df : DataFrame) :
  Forall numbers_only (cols df) → ∃ df', clip_lower0 df = Ok df'.
Proof.
  intros H. unfold clip_lower0.
  destruct (mapR_total
              (λ lc : scalar * Column,
                 match mapR clip0 (col_values lc.2) with
                 | Ok vs => Ok (lc.1, MkColumn (col_dtype lc.2) vs)
                 | Raise e => Raise e
                 end)
              (λ _, True) (cols df)) as (cs & Hcs & _).
  { eapply Forall_impl; [exact H|]. intros lc Hlc. cbn beta.
    destruct (mapR_total clip0 (λ _, True) (col_values lc.2)) as (vs & Hvs & _).
    { eapply Forall_impl; [exact Hlc|]. intros v Hv.
      destruct v as [|q|s]; [by eexists|by eexists|by destruct Hv]. }
    rewrite Hvs. by eexists. }
  rewrite Hcs. by eexists.
Qed.

Lemma prepare_dataframe_numbers_only (E : Env) (d : DataFrame) :
  idx_dtype (index d) = Object →
  Forall (λ lc, numeric lc → numbers_only lc) (cols d) →
  ∃ raw, prepare_dataframe E d = Ok raw ∧ Forall numbers_only (cols raw).
Proof.
  intros Hi H. unfold prepare_dataframe.
  rewrite (bool_decide_eq_false_2 (idx_dtype (index d) ≠ Object)) by (by intros []).
  eexists. split; [done|]. rewrite select_dtypes_number_cols.
  apply Forall_forall. intros lc Hlc. apply list_elem_of_filter in Hlc as [Hn Hlc].
  destruct (bool_decide (columns_dtype d ≠ Object)).
  - rewrite set_columns_astype in Hlc. cbn [cols] in Hlc. unfold relabel_cols in Hlc.
    apply list_elem_of_fmap in Hlc as (lc0 & -> & Hlc0).
    rewrite Forall_forall in H. by apply (H lc0).
  - rewrite Forall_forall in H. by apply H.
Qed.

(** X22: a DataFrame with gene names as its (object dtype) row index whose
    numeric columns hold numbers or missing values is always loaded:
    [load_data] returns a matrix, in Poisson mode the clamp succeeds too,
    and [run] gets as far as filtering the gene sets against the genes of
    that matrix. *)
Theorem dataframe_with_gene_names_loads (E : Env) (σ : world E) (d : DataFrame) :
  heap σ !! data (self σ) = Some (PyDataFrame d) →
  idx_dtype (index d) = Object →
  Forall (λ lc, numeric lc → numbers_only lc) (cols d) →
  ∃ df df',
    value (load_data E σ) = Ok df ∧
    passed_on E (self σ) df = Ok df' ∧
    CallLoadGmt (idx_values (index df')) (gene_sets (base (self σ))) ∈ events (run E σ).
Proof.
  intros H Hi Hd.
  destruct (prepare_dataframe_numbers_only E d Hi Hd) as (raw & Hraw & Hnum).
  destruct (cleaned_total raw Hnum) as (df & Hcl & Hnum').
  assert (value (load_data E σ) = Ok df) as Hl
    by by rewrite load_data_value, (read_input_dataframe E σ d H); cbn [value]; rewrite Hraw.
  assert (∃ df', passed_on E (self σ) df = Ok df') as [df' Hp].
  { unfold passed_on. destruct (rnaseq (self σ)); [by apply clip_lower0_total|by eexists]. }
  exists df, df'. split; [done|]. split; [done|].
  rewrite run_course_spec. unfold run_course. cbv zeta. rewrite Hl, Hp.
  course_tail E σ; in_events.
Qed.

Lemma dataframe_with_gene_names_loads_witness :
  ∃ df df',
    value (load_data Demo.env (Demo.start (PyDataFrame Demo.frame) None 15 500)) = Ok df ∧
    passed_on Demo.env (self (Demo.start (PyDataFrame Demo.frame) None 15 500)) df = Ok df' ∧
    CallLoadGmt (idx_values (index df'))
      (gene_sets (base (self (Demo.start (PyDataFrame Demo.frame) None 15 500))))
      ∈ events (run Demo.env (Demo.start (PyDataFrame Demo.frame) None 15 500)).
Proof.
  apply (dataframe_with_gene_names_loads Demo.env
           (Demo.start (PyDataFrame Demo.frame) None 15 500) Demo.frame).
  - reflexivity.
  - reflexivity.
  - repeat (constructor; [intros Hn; try (by destruct Hn); repeat constructor; by intros []|]).
    constructor.
Defined.

Lemma numeric_input_reaches_filter (E : Env) (σ : world E) (raw : DataFrame) :
  value (read_input E σ) = Ok raw →
  Forall numbers_only (cols raw) →
  ∃ df df',
    value (load_data E σ) = Ok df ∧
    passed_on E (self σ) df = Ok df' ∧
    CallLoadGmt (idx_values (index df')) (gene_sets (base (self σ))) ∈ events (run E σ).
Proof.
  intros Hraw Hnum.
  destruct (cleaned_total raw Hnum) as (df & Hcl & Hnum').
  assert (value (load_data E σ) = Ok df) as Hl by by rewrite load_data_value, Hraw.
  assert (∃ df', passed_on E (self σ) df = Ok df') as [df' Hp].
  { unfold passed_on. destruct (rnaseq (self σ)); [by apply clip_lower0_total|by eexists]. }
  exists df, df'. split; [done|]. split; [done|].
  rewrite run_course_spec. unfold run_course. cbv zeta. rewrite Hl, Hp.
  course_tail E σ; in_events.
Qed.

Lemma prepare_file_numbers_only (E : Env) (path : string) (parsed : DataFrame) :
  read_csv E path (if endswith path "gct" then 1%nat else 0%nat)
    (if endswith path "gct" then TAB else if endswith path "csv" then "," else TAB)
    = Ok parsed →
  Forall (λ lc, numeric lc → numbers_only lc) (cols parsed) →
  ∃ raw, prepare_file E path = Ok raw ∧ Forall numbers_only (cols raw).
Proof.
  intros Hp H. unfold prepare_file.
  assert (∀ d, Forall (λ lc, numeric lc → numbers_only lc) (cols d) →
               Forall numbers_only (cols (select_dtypes_number d))) as Hsel.
  { intros d Hd. rewrite select_dtypes_number_cols. apply Forall_forall. intros lc Hlc.
    apply list_elem_of_filter in Hlc as [Hn Hlc]. rewrite Forall_forall in Hd. by apply Hd. }
  destruct (endswith path "gct").
  - rewrite Hp. eexists. split; [done|]. by apply Hsel.
  - rewrite Hp. eexists. split; [done|]. apply Hsel.
    destruct (bool_decide (shape1 parsed = 1%nat)); [|done].
    rewrite set_columns_astype. cbn [cols]. unfold relabel_cols. apply Forall_fmap.
    eapply Forall_impl; [exact H|]. by intros lc Hlc.
Qed.

(** X23: a file that exists and parses into a frame whose numeric columns
    hold numbers or missing values is always loaded: [load_data] returns a
    matrix, in Poisson mode the clamp succeeds too, and [run] gets as far as
    filtering the gene sets against the genes of that matrix. *)
Theorem parsed_file_loads (E : Env) (σ : world E) (path : string) (parsed : DataFrame) :
  heap σ !! data (self σ) = Some (PyStr path) →
  isfile E path = true →
  read_csv E path (if endswith path "gct" then 1%nat else 0%nat)
    (if endswith path "gct" then TAB else if endswith path "csv" then "," else TAB)
    = Ok parsed →
  Forall (λ lc, numeric lc → numbers_only lc) (cols parsed) →
  ∃ df df',
    value (load_data E σ) = Ok df ∧
    passed_on E (self σ) df = Ok df' ∧
    CallLoadGmt (idx_values (index df')) (gene_sets (base (self σ))) ∈ events (run E σ).
Proof.
  intros H Hf Hp Hnum.
  destruct (prepare_file_numbers_only E path parsed Hp Hnum) as (raw & Hraw & Hn).
  apply (numeric_input_reaches_filter E σ raw); [|done].
  by rewrite (read_input_file E σ path H Hf).
Qed.

Lemma parsed_file_loads_witness :
  ∃ df df',
    value (load_data Demo.env (Demo.start (PyStr "expr.txt") None 15 500)) = Ok df ∧
    passed_on Demo.env (self (Demo.start (PyStr "expr.txt") None 15 500)) df = Ok df' ∧
    CallLoadGmt (idx_values (index df'))
      (gene_sets (base (self (Demo.start (PyStr "expr.txt") None 15 500))))
      ∈ events (run Demo.env (Demo.start (PyStr "expr.txt") None 15 500)).
Proof.
  apply (parsed_file_loads Demo.env (Demo.start (PyStr "expr.txt") None 15 500)
           "expr.txt" Demo.parsed).
  - reflexivity.
  - reflexivity.
  - reflexivity.
  - repeat (constructor; [intros Hn; try (by destruct Hn); repeat constructor; by intros []|]).
    constructor.
Defined.

(** X24: [run] stores the filtered gene sets in [self.gmt] as soon as the
    gene-set filter has returned, whatever happens afterwards; when loading,
    the clamp or the filter fails, [run] raises and [self.gmt] is what it
    was. *)
Theorem gene_sets_stored_once_filtered (E : Env) (σ : world E) :
  (∀ df df' g,
     value (load_data E σ) = Ok df → passed_on E (self σ) df = Ok df' →
     load_gmt E (idx_values (index df')) (gene_sets (base (self σ))) = Ok g →
     gmt (self (after (run E σ))) = Some g) ∧
  ((∀ df df' g,
      value (load_data E σ) = Ok df → passed_on E (self σ) df = Ok df' →
      load_gmt E (idx_values (index df')) (gene_sets (base (self σ))) ≠ Ok g) →
   gmt (self (after (run E σ))) = gmt (self σ) ∧ ∃ e, value (run E σ) = Raise e).
Proof.
  pose proof (load_data_self E σ) as Hs.
  split.
  - intros df df' g Hl Hp Hg. rewrite run_course_spec. unfold run_course. cbv zeta.
    rewrite Hl, Hp, Hg.
    destruct (bool_decide _); [|done].
    destruct (truthy _); [destruct (mkdirs E _) as [[]|?]; [|done]|]; by course_scoring E.
  - intros Hno. course E σ.
    all: try (by destruct (Hno _ _ _ eq_refl Hpass Hgmt)).
    all: split; [by rewrite ?Hs|by eexists].
Qed.
